(** * Token validation and role authorization of [KeycloakAdapter]

    A shallow embedding of the token-handling methods of
    [archipy/adapters/keycloak/adapters.py]:
    [get_public_key], [validate_token], [has_role], [has_any_role],
    [check_permissions] and [get_token_info], then of [get_userinfo], of
    the lazily refreshed admin client ([_initialize_admin_client],
    [admin_adapter]) and of [search_users].

    The methods are Python code over dynamically typed values (the decoded
    claims of a token and the answer of the UMA permission endpoint are parsed
    JSON), they raise and catch exceptions, and they talk to the identity
    provider through [self.openid_adapter].  The embedding keeps all three:
    - [pyval] is the type of parsed JSON values, with the Python operations the
      methods apply to them ([.get], [.values()], [in], [==], truthiness,
      [isinstance(_, list)]), each raising what Python raises on a value of
      the wrong type;
    - [outcome] is "returns a value or raises an exception", [M] adds the
      state of the adapter, and [try_except] is Python's [try]/[except] with
      its first-matching-clause rule;
    - the client library is a record of answers ([Env]), one per call the
      methods make, and every call that goes over the network is appended to
      a log kept in the state.

    Logging calls ([logger.debug], [logger.error]) have no effect on results
    and are left out. *)

From Stdlib Require Import ZArith QArith Floats Lia List String Ascii Bool.
Import ListNotations.

Local Open Scope string_scope.
Local Open Scope Z_scope.
Local Open Scope list_scope.
#[local] Set Warnings "-register-all".

(* ================================================================= *)
(** ** Python values *)

(** Parsed JSON, as [json.loads] builds it.  A dict is the list of its items
    in insertion order (the order [.values()] iterates in). A float is kept as
    the decimal mantissa and exponent it is written with; the methods that
    compute with one read its binary64 value through [json_float], below. *)
Inductive pyval : Type :=
| PNone
| PBool (b : bool)
| PInt (z : Z)
| PFloat (mantissa exponent : Z)
| PStr (s : string)
| PList (elems : list pyval)
| PDict (items : list (string * pyval)).

(** Exception classes the methods can meet, all deriving from [Exception]
    ([KeyboardInterrupt] and [SystemExit] are no errors of an evaluation and
    are not modelled).  [KeycloakError] stands for the class and its
    subclasses; [LibraryError name] for an exception class of a collaborating
    library that does not derive from [KeycloakError] (jwcrypto's
    token-validation errors, a connection error of the HTTP layer, ...). *)
Inductive exc_class : Type :=
| KeycloakError
| ValueError
| AttributeError
| TypeError
| LibraryError (name : string).

(** An exception object: its class and [str(e)]. *)
Record exn : Type := PyExc { exc_type : exc_class; exc_str : string }.

(** [except KeycloakError] *)
Definition isinstance_KeycloakError (e : exn) : bool :=
  match exc_type e with
  | KeycloakError => true
  | _ => false
  end.

(** [except Exception]: every class above derives from [Exception]. *)
Definition isinstance_Exception (e : exn) : bool :=
  match exc_type e with
  | KeycloakError | ValueError | AttributeError | TypeError | LibraryError _ => true
  end.

(** What evaluating a Python expression gives. *)
Inductive outcome (A : Type) : Type :=
| Returns (a : A)
| Raises (e : exn).
Arguments Returns {A} a.
Arguments Raises {A} e.

Definition obind {A B : Type} (o : outcome A) (k : A -> outcome B) : outcome B :=
  match o with
  | Returns a => k a
  | Raises e => Raises e
  end.

Notation "x <- o ;; k" := (obind o (fun x => k))
  (at level 61, o at next level, right associativity).

Definition type_name (v : pyval) : string :=
  match v with
  | PNone => "NoneType"
  | PBool _ => "bool"
  | PInt _ => "int"
  | PFloat _ _ => "float"
  | PStr _ => "str"
  | PList _ => "list"
  | PDict _ => "dict"
  end.

Definition no_attribute (v : pyval) (attr : string) : exn :=
  PyExc AttributeError
    ("'" ++ type_name v ++ "' object has no attribute '" ++ attr ++ "'")%string.

Definition not_iterable (v : pyval) : exn :=
  PyExc TypeError ("argument of type '" ++ type_name v ++ "' is not iterable")%string.

Fixpoint dict_lookup (items : list (string * pyval)) (key : string) : option pyval :=
  match items with
  | [] => None
  | (k, v) :: rest => if String.eqb k key then Some v else dict_lookup rest key
  end.

(** [obj.get(key, default)]: only a dict has the method. *)
Definition py_get (obj : pyval) (key : string) (default : pyval) : outcome pyval :=
  match obj with
  | PDict items =>
      Returns (match dict_lookup items key with
               | Some v => v
               | None => default
               end)
  | _ => Raises (no_attribute obj "get")
  end.

(** [obj.values()] *)
Definition py_values (obj : pyval) : outcome (list pyval) :=
  match obj with
  | PDict items => Returns (map snd items)
  | _ => Raises (no_attribute obj "values")
  end.

(** [v == s] for a [str] [s]: only an equal [str] compares equal. *)
Definition py_eq_str (v : pyval) (s : string) : bool :=
  match v with
  | PStr t => String.eqb t s
  | _ => false
  end.

Definition is_substring (s t : string) : bool :=
  match String.index 0 s t with
  | Some _ => true
  | None => false
  end.

(** [s in container] for a [str] [s]: element of a list, key of a dict,
    substring of a str; the other values are not iterable. *)
Definition py_in (s : string) (container : pyval) : outcome bool :=
  match container with
  | PList elems => Returns (existsb (fun v => py_eq_str v s) elems)
  | PDict items => Returns (existsb (fun kv => String.eqb (fst kv) s) items)
  | PStr t => Returns (is_substring s t)
  | _ => Raises (not_iterable container)
  end.

(** [bool(v)] *)
Definition py_truthy (v : pyval) : bool :=
  match v with
  | PNone => false
  | PBool b => b
  | PInt z => negb (z =? 0)
  | PFloat m _ => negb (m =? 0)
  | PStr s => negb (String.eqb s EmptyString)
  | PList elems => match elems with [] => false | _ => true end
  | PDict items => match items with [] => false | _ => true end
  end.

(** [isinstance(v, list)] *)
Definition isinstance_list (v : pyval) : bool :=
  match v with
  | PList _ => true
  | _ => false
  end.

(** The elements a [for] loop over [v] visits, for a [v] known to be a list. *)
Definition list_elems (v : pyval) : list pyval :=
  match v with
  | PList elems => elems
  | _ => []
  end.

(* ================================================================= *)
(** ** The adapter's state, its collaborators and its monad *)

(** A [jwk.JWK] object, opaque but for the key material it was built from. *)
Inductive JWK : Type := JWKey (material : string).

(** Calls that leave the process. *)
Inductive NetCall : Type :=
| FetchPublicKey
| UmaPermissions (token : string) (permissions : list string).

(** The state a method call can change: the one slot of the cache that
    decorates [get_public_key] (the key and the time its entry expires), and
    the log of network calls made so far. *)
Record State : Type := mkState {
  public_key_cache : option (JWK * Z);
  network_log : list NetCall
}.

(** What the outside world answers during one method call: the clock, the
    OpenID client [self.openid_adapter] and jwcrypto's PEM parser.  A method
    calls each of them at most once. *)
Record Env : Type := mkEnv {
  clock : Z;
  openid_public_key : outcome string;
  jwk_from_pem : string -> outcome JWK;
  openid_decode_token : string -> JWK -> outcome pyval;
  openid_uma_permissions : string -> list string -> outcome pyval
}.

Definition M (A : Type) : Type := State -> outcome A * State.

Definition ret {A : Type} (a : A) : M A := fun st => (Returns a, st).

Definition raise {A : Type} (e : exn) : M A := fun st => (Raises e, st).

Definition lift {A : Type} (o : outcome A) : M A := fun st => (o, st).

Definition bind {A B : Type} (m : M A) (k : A -> M B) : M B :=
  fun st =>
    match m st with
    | (Returns a, st') => k a st'
    | (Raises e, st') => (Raises e, st')
    end.

Notation "x <~ m ;; k" := (bind m (fun x => k))
  (at level 61, m at next level, right associativity).

(** One [except Class as e: handler] clause. *)
Definition except_clause (A : Type) : Type := ((exn -> bool) * (exn -> M A))%type.

Fixpoint handle {A : Type} (clauses : list (except_clause A)) (e : exn) : M A :=
  match clauses with
  | [] => raise e
  | (matches, handler) :: rest => if matches e then handler e else handle rest e
  end.

(** [try: body  except ...: ...]: an exception of the body goes to the first
    clause whose class it is an instance of, and propagates when there is none;
    what a handler raises is not caught by this statement. *)
Definition try_except {A : Type} (body : M A) (clauses : list (except_clause A)) : M A :=
  fun st =>
    match body st with
    | (Returns a, st') => (Returns a, st')
    | (Raises e, st') => handle clauses e st'
    end.

Definition log_call (c : NetCall) (st : State) : State :=
  mkState (public_key_cache st) (network_log st ++ [c]).

Definition newline : string := String (ascii_of_nat 10) EmptyString.

(** [f"-----BEGIN PUBLIC KEY-----\n{keys_info}\n-----END PUBLIC KEY-----"] *)
Definition pem_of (keys_info : string) : string :=
  ("-----BEGIN PUBLIC KEY-----" ++ newline ++ keys_info ++ newline
   ++ "-----END PUBLIC KEY-----")%string.

Module KeycloakAdapter.
Section Methods.

Variable env : Env.

(** [self.openid_adapter.public_key()]: an HTTP request to the realm. *)
Definition call_public_key : M string :=
  fun st => (openid_public_key env, log_call FetchPublicKey st).

(** [self.openid_adapter.uma_permissions(token, permissions=...)]: an HTTP
    request to the token endpoint. *)
Definition call_uma_permissions (token : string) (permissions : list string) : M pyval :=
  fun st => (openid_uma_permissions env token permissions,
             log_call (UmaPermissions token permissions) st).

(** Modelled from the spec: [ttl_cache_decorator] of
    [archipy/helpers/decorators/cache.py], which is not among the sources.
    The spec's public-key cache: a held key is served while its recorded
    expiry has not passed; when no key is held or the expiry has passed, the
    decorated function is called and its result stored with the expiry
    "fetch time + TTL"; when that call fails nothing is stored and the
    failure is the caller's.  [maxsize=1] is the single slot of [State]. *)
Definition ttl_cache_decorator (ttl_seconds : Z) (func : M JWK) : M JWK :=
  fun st =>
    let refresh :=
      match func st with
      | (Returns key, st') =>
          (Returns key,
           mkState (Some (key, clock env + ttl_seconds)) (network_log st'))
      | (Raises e, st') => (Raises e, st')
      end in
    match public_key_cache st with
    | Some (key, expiry) => if clock env <? expiry then (Returns key, st) else refresh
    | None => refresh
    end.

(** The body of [get_public_key], under the decorator. *)
Definition fetch_public_key : M JWK :=
  try_except
    (keys_info <~ call_public_key ;;
     let key := pem_of keys_info in
     lift (jwk_from_pem env key))
    [(isinstance_Exception,
      fun e => raise (PyExc ValueError ("Failed to get public key: " ++ exc_str e)%string))].

(** [@ttl_cache_decorator(ttl_seconds=3600, maxsize=1) def get_public_key(self)] *)
Definition get_public_key : M JWK := ttl_cache_decorator 3600 fetch_public_key.

(** [self.openid_adapter.decode_token(token, key=self.get_public_key())],
    the expression four methods start with: the argument is evaluated
    first, the library's decoding runs in memory. *)
Definition decode_with_public_key (token : string) : M pyval :=
  key <~ get_public_key ;;
  lift (openid_decode_token env token key).

Definition validate_token_try (token : string) : M bool :=
  _ <~ decode_with_public_key token ;;
  ret true.

Definition validate_token (token : string) : M bool :=
  try_except (validate_token_try token)
    [(isinstance_Exception, fun _ => ret false)].

(** [for client in ...values(): if role_name in client.get("roles", []): return True],
    then [return False]. *)
Fixpoint has_role_clients (role_name : string) (clients : list pyval) : outcome bool :=
  match clients with
  | [] => Returns false
  | client :: rest =>
      client_roles <- py_get client "roles" (PList []) ;;
      found <- py_in role_name client_roles ;;
      if found then Returns true else has_role_clients role_name rest
  end.

(** What [has_role] does with the decoded claims. *)
Definition has_role_claims (token_info : pyval) (role_name : string) : outcome bool :=
  realm_access <- py_get token_info "realm_access" (PDict []) ;;
  roles <- py_get realm_access "roles" (PList []) ;;
  found <- py_in role_name roles ;;
  if found then Returns true
  else
    resource_access <- py_get token_info "resource_access" (PDict []) ;;
    clients <- py_values resource_access ;;
    has_role_clients role_name clients.

Definition has_role_try (token role_name : string) : M bool :=
  token_info <~ decode_with_public_key token ;;
  lift (has_role_claims token_info role_name).

Definition has_role (token role_name : string) : M bool :=
  try_except (has_role_try token role_name)
    [(isinstance_Exception, fun _ => ret false)].

(** [for role in role_names: if role in roles: return True]; [false] when
    the loop ends without returning. *)
Fixpoint any_role_in (role_names : list string) (roles : pyval) : outcome bool :=
  match role_names with
  | [] => Returns false
  | role :: rest =>
      found <- py_in role roles ;;
      if found then Returns true else any_role_in rest roles
  end.

Fixpoint has_any_role_clients (role_names : list string) (clients : list pyval)
  : outcome bool :=
  match clients with
  | [] => Returns false
  | client :: rest =>
      client_roles <- py_get client "roles" (PList []) ;;
      found <- any_role_in role_names client_roles ;;
      if found then Returns true else has_any_role_clients role_names rest
  end.

Definition has_any_role_claims (token_info : pyval) (role_names : list string)
  : outcome bool :=
  realm_access <- py_get token_info "realm_access" (PDict []) ;;
  roles <- py_get realm_access "roles" (PList []) ;;
  found <- any_role_in role_names roles ;;
  if found then Returns true
  else
    resource_access <- py_get token_info "resource_access" (PDict []) ;;
    clients <- py_values resource_access ;;
    has_any_role_clients role_names clients.

Definition has_any_role_try (token : string) (role_names : list string) : M bool :=
  token_info <~ decode_with_public_key token ;;
  lift (has_any_role_claims token_info role_names).

Definition has_any_role (token : string) (role_names : list string) : M bool :=
  try_except (has_any_role_try token role_names)
    [(isinstance_Exception, fun _ => ret false)].

(** [for perm in permissions:
       if perm.get("rsname") == resource and scope in perm.get("scopes", []):
           return True]
    then [return False]; [and] does not evaluate its right side when the
    left one is false. *)
Fixpoint permission_granted (resource scope : string) (permissions : list pyval)
  : outcome bool :=
  match permissions with
  | [] => Returns false
  | perm :: rest =>
      rsname <- py_get perm "rsname" PNone ;;
      if py_eq_str rsname resource then
        scopes <- py_get perm "scopes" (PList []) ;;
        found <- py_in scope scopes ;;
        if found then Returns true else permission_granted resource scope rest
      else permission_granted resource scope rest
  end.

(** The answer of the endpoint, read as [check_permissions] reads it. *)
Definition read_permissions (permissions : pyval) (resource scope : string)
  : outcome bool :=
  if negb (py_truthy permissions) || negb (isinstance_list permissions)
  then Returns false
  else permission_granted resource scope (list_elems permissions).

Definition requirement (resource scope : string) : string :=
  (resource ++ "#" ++ scope)%string.

Definition check_permissions_try (token resource scope : string) : M bool :=
  permissions <~ call_uma_permissions token [requirement resource scope] ;;
  lift (read_permissions permissions resource scope).

Definition check_permissions (token resource scope : string) : M bool :=
  try_except (check_permissions_try token resource scope)
    [(isinstance_KeycloakError, fun _ => ret false);
     (isinstance_Exception, fun _ => ret false)].

Definition get_token_info (token : string) : M pyval :=
  try_except (decode_with_public_key token)
    [(isinstance_KeycloakError,
      fun e => raise (PyExc ValueError ("Failed to get token info: " ++ exc_str e)%string))].

End Methods.
End KeycloakAdapter.

Import KeycloakAdapter.

(* ================================================================= *)
(** ** The spec's readings of results, claims, answers and the cache *)

(** The boolean a deny-on-error predicate makes of its [try] block. *)
Definition denied_on_error (o : outcome bool) : bool :=
  match o with
  | Returns b => b
  | Raises _ => false
  end.

(** A predicate fails closed over its [try] block: it returns a boolean
    whatever happens, and [False] whenever the block raises. *)
Definition fails_closed (try_block predicate : M bool) (st : State) : Prop :=
  (exists b, fst (predicate st) = Returns b) /\
  (forall e, fst (try_block st) = Raises e -> fst (predicate st) = Returns false).

(** The role part of the spec's DecodedClaims: the realm roles, and the role
    set of each client, by client id. *)
Record DecodedClaims : Type := mkClaims {
  realm_roles : list string;
  client_roles : list (string * list string)
}.

(** The strings of a JSON list (no other element can equal a role name). *)
Fixpoint str_elems (elems : list pyval) : list string :=
  match elems with
  | [] => []
  | PStr s :: rest => s :: str_elems rest
  | _ :: rest => str_elems rest
  end.

(** The role set under the key ["roles"] of a JSON object: absent is empty,
    and anything but a list is not a role set. *)
Definition role_set (obj : pyval) : option (list string) :=
  match obj with
  | PDict items =>
      match dict_lookup items "roles" with
      | None => Some []
      | Some (PList elems) => Some (str_elems elems)
      | Some _ => None
      end
  | _ => None
  end.

Fixpoint client_role_sets (clients : list (string * pyval))
  : option (list (string * list string)) :=
  match clients with
  | [] => Some []
  | (client_id, client) :: rest =>
      match role_set client, client_role_sets rest with
      | Some roles, Some sets => Some ((client_id, roles) :: sets)
      | _, _ => None
      end
  end.

(** The claims of a token read as DecodedClaims, following Keycloak's claim
    paths [realm_access.roles] and [resource_access.<client>.roles]; [None]
    when the payload does not have that shape. *)
Definition decoded_claims (token_info : pyval) : option DecodedClaims :=
  match token_info with
  | PDict items =>
      match
        match dict_lookup items "realm_access" with
        | None => Some []
        | Some realm_access => role_set realm_access
        end,
        match dict_lookup items "resource_access" with
        | None => Some []
        | Some (PDict clients) => client_role_sets clients
        | Some _ => None
        end
      with
      | Some realm, Some clients => Some (mkClaims realm clients)
      | _, _ => None
      end
  | _ => None
  end.

(** The spec's reading of [has_role]: the role is a realm role, or a role of
    at least one client. *)
Definition holds_role (claims : DecodedClaims) (role_name : string) : Prop :=
  In role_name (realm_roles claims)
  \/ exists client_id roles, In (client_id, roles) (client_roles claims) /\ In role_name roles.









(** A predicate is decided by the claims when two runs that decode the same
    claims return the same boolean, whatever the realms and the states, and
    a run makes no network call beyond those of the decoding. *)
Definition decided_by_claims (predicate : Env -> string -> M bool) : Prop :=
  forall (env1 env2 : Env) (st1 st2 : State) (token1 token2 : string) (token_info : pyval),
    fst (decode_with_public_key env1 token1 st1) = Returns token_info ->
    fst (decode_with_public_key env2 token2 st2) = Returns token_info ->
    fst (predicate env1 token1 st1) = fst (predicate env2 token2 st2)
    /\ network_log (snd (predicate env1 token1 st1))
       = network_log (snd (decode_with_public_key env1 token1 st1)).

(** A predicate is decided by the answer of the permission endpoint when two
    runs that get the same answer return the same boolean, and a run makes
    the one request for [resource] and [scope] and no other call. *)
Definition decided_by_answer (resource scope : string)
  (predicate : Env -> string -> M bool) : Prop :=
  forall (env1 env2 : Env) (st1 st2 : State) (token1 token2 : string),
    (openid_uma_permissions env1 token1 [requirement resource scope]
     = openid_uma_permissions env2 token2 [requirement resource scope] ->
     fst (predicate env1 token1 st1) = fst (predicate env2 token2 st2))
    /\ network_log (snd (predicate env1 token1 st1))
       = network_log st1 ++ [UmaPermissions token1 [requirement resource scope]].

(** The key the cache can serve at the time of the call: a held key whose
    recorded expiry has not passed. *)
Definition usable_key (env : Env) (st : State) : option JWK :=
  match public_key_cache st with
  | Some (key, expiry) => if clock env <? expiry then Some key else None
  | None => None
  end.

(** What a fetch gives: the realm's key, parsed. *)
Definition fetched_key (env : Env) : outcome JWK :=
  keys_info <- openid_public_key env ;;
  jwk_from_pem env (pem_of keys_info).

(** The error [get_public_key] raises for a failure [cause]: the adapter's
    key-unavailability error. *)
Definition key_unavailable (cause : exn) : exn :=
  PyExc ValueError ("Failed to get public key: " ++ exc_str cause)%string.

(** The error [get_token_info] raises in place of a [KeycloakError]: the
    adapter's invalid-token error. *)
Definition invalid_token (cause : exn) : exn :=
  PyExc ValueError ("Failed to get token info: " ++ exc_str cause)%string.

(* ================================================================= *)
(** ** A realm to run the methods in *)

Definition realm_key : string := "MIIBIjANBgkqhkiG9w0BAQEFAAOCAQ8AMIIBCgKCAQEA".

(** The claims of a token of user alice. *)
Definition alice_claims : pyval :=
  PDict [("sub", PStr "alice");
         ("exp", PInt 4600);
         ("realm_access", PDict [("roles", PList [PStr "admin"; PStr "user"])]);
         ("resource_access",
          PDict [("billing-service", PDict [("roles", PList [PStr "payer"])])])].

(** Signed claims that do not have Keycloak's shape: [realm_access] is a
    list. *)
Definition odd_claims : pyval :=
  PDict [("sub", PStr "mallory"); ("realm_access", PList [PStr "admin"])].

(** What the library does with the tokens of the realm: it decodes alice's
    and the odd one, and refuses an expired one and anything else with
    jwcrypto's errors. *)
Definition realm_decode_token (token : string) (key : JWK) : outcome pyval :=
  if String.eqb token "alice.jwt" then Returns alice_claims
  else if String.eqb token "odd.jwt" then Returns odd_claims
  else if String.eqb token "expired.jwt" then
    Raises (PyExc (LibraryError "JWTExpired") "Expired at 900, time: 1000")
  else Raises (PyExc ValueError "Token format unrecognized").

Definition invoices_read : pyval :=
  PList [PDict [("rsname", PStr "invoices"); ("scopes", PList [PStr "read"])]].



(** The realm at time 1000, reachable, answering every permission request
    with [answer]. *)
Definition realm_answering (answer : outcome pyval) : Env :=
  {| clock := 1000;
     openid_public_key := Returns realm_key;
     jwk_from_pem := fun pem => Returns (JWKey pem);
     openid_decode_token := realm_decode_token;
     openid_uma_permissions := fun _ _ => answer |}.

Definition realm : Env := realm_answering (Returns invoices_read).

(** The same realm when it cannot be reached. *)
Definition unreachable_realm : Env :=
  {| clock := 1000;
     openid_public_key := Raises (PyExc (LibraryError "ConnectionError") "Connection refused");
     jwk_from_pem := fun pem => Returns (JWKey pem);
     openid_decode_token := realm_decode_token;
     openid_uma_permissions :=
       fun _ _ => Raises (PyExc (LibraryError "ConnectionError") "Connection refused") |}.

(** A new adapter: no key held, no call made. *)
Definition new_adapter : State := mkState None [].

(** An adapter that fetched the realm's key at time 1000. *)
Definition warm_adapter : State :=
  mkState (Some (JWKey (pem_of realm_key), 4600)) [FetchPublicKey].

(* ================================================================= *)
(** ** More of Python: numbers, iteration, subscripts, hashing, slices *)

(** What a number is worth when two of them are compared: Python compares
    an [int] and a [float] by their exact values. *)
Inductive number : Type :=
| Finite (q : Q)
| Infinite (negative : bool)
| NotANumber.

(** The exact value of a binary64. *)
Definition float_number (f : float) : number :=
  match Prim2SF f with
  | S754_zero _ => Finite 0%Q
  | S754_finite negative m e =>
      Finite (inject_Z (if negative then Z.neg m else Z.pos m) * Qpower (inject_Z 2) e)%Q
  | S754_infinity negative => Infinite negative
  | S754_nan => NotANumber
  end.

(** [==] between numbers: a NaN equals nothing. *)
Definition number_eqb (a b : number) : bool :=
  match a, b with
  | Finite x, Finite y => Qeq_bool x y
  | Infinite x, Infinite y => Bool.eqb x y
  | _, _ => false
  end.

(** The number a value stands for when ids are compared: [bool] is an
    [int], and a float is the binary64 [json.loads] read, [json_float m e]
    for the JSON number written [m]e[e]. *)
Definition py_number (json_float : Z -> Z -> float) (v : pyval) : option number :=
  match v with
  | PBool b => Some (Finite (if b then 1%Q else 0%Q))
  | PInt z => Some (Finite (inject_Z z))
  | PFloat m e => Some (float_number (json_float m e))
  | _ => None
  end.

(** [float(z)] for an [int] [z], as [float + int] converts it: the nearest
    binary64, ties to even.  An [int] beyond the range of binary64 raises
    [OverflowError], which, like [KeyError] below, has no constructor of its
    own in [exc_class] and is written with the open one. *)
Definition py_int_to_float (z : Z) : outcome float :=
  match binary_normalize prec emax z 0 false with
  | S754_infinity _ =>
      Raises (PyExc (LibraryError "OverflowError") "int too large to convert to float")
  | rounded => Returns (SF2Prim rounded)
  end.

(** The binary64 operand [float.__add__] makes of [v]: a [bool] or [int] is
    converted, a [float] is itself, and anything else has no sum with a
    float.  [json_float m e] is the binary64 value of the JSON number
    written [m]e[e], as [json.loads] read it. *)
Definition py_to_float (json_float : Z -> Z -> float) (v : pyval) : outcome float :=
  match v with
  | PBool b => Returns (if b then 1%float else 0%float)
  | PInt z => py_int_to_float z
  | PFloat m e => Returns (json_float m e)
  | _ =>
      Raises (PyExc TypeError
                ("unsupported operand type(s) for +: 'float' and '" ++ type_name v ++ "'")%string)
  end.

(** [t + v] for a float [t], in binary64. *)
Definition py_float_add (json_float : Z -> Z -> float) (t : float) (v : pyval)
  : outcome float :=
  x <- py_to_float json_float v ;;
  Returns (t + x)%float.

Fixpoint chars_of (s : string) : list pyval :=
  match s with
  | EmptyString => []
  | String c rest => PStr (String c EmptyString) :: chars_of rest
  end.

(** The values a [for] (or [list.extend]) over [v] visits: the elements of a
    list, the keys of a dict, the characters of a str. *)
Definition py_iter (v : pyval) : outcome (list pyval) :=
  match v with
  | PList elems => Returns elems
  | PDict items => Returns (map (fun kv => PStr (fst kv)) items)
  | PStr s => Returns (chars_of s)
  | _ => Raises (PyExc TypeError ("'" ++ type_name v ++ "' object is not iterable")%string)
  end.

(** [obj[key]] for a [str] key.  [KeyError] has no constructor of its own in
    [exc_class]; it is written with the open one, which every [except]
    clause of the adapter treats alike (an [Exception], no
    [KeycloakError]). *)
Definition py_getitem (obj : pyval) (key : string) : outcome pyval :=
  match obj with
  | PDict items =>
      match dict_lookup items key with
      | Some v => Returns v
      | None => Raises (PyExc (LibraryError "KeyError") ("'" ++ key ++ "'")%string)
      end
  | PStr _ => Raises (PyExc TypeError "string indices must be integers, not 'str'")
  | PList _ => Raises (PyExc TypeError "list indices must be integers or slices, not str")
  | _ => Raises (PyExc TypeError ("'" ++ type_name obj ++ "' object is not subscriptable")%string)
  end.

(** [hash(v)], as a set needs it: lists and dicts have none. *)
Definition py_hashable (v : pyval) : outcome unit :=
  match v with
  | PList _ | PDict _ => Raises (PyExc TypeError ("unhashable type: '" ++ type_name v ++ "'")%string)
  | _ => Returns tt
  end.

(** [a == b] between hashable values: numbers compare by value across
    [bool], [int] and [float], strings by content, [None] with itself. *)
Definition py_key_eqb (json_float : Z -> Z -> float) (a b : pyval) : bool :=
  match py_number json_float a, py_number json_float b with
  | Some x, Some y => number_eqb x y
  | _, _ =>
      match a, b with
      | PStr s, PStr t => String.eqb s t
      | PNone, PNone => true
      | _, _ => false
      end
  end.

(** [l[:n]]: a negative [n] counts from the end. *)
Definition py_slice_to (l : list pyval) (n : Z) : list pyval :=
  if 0 <=? n then firstn (Z.to_nat n) l
  else firstn (List.length l - Z.to_nat (- n)) l.

(* ================================================================= *)
(** ** The admin side of the adapter *)

(** A [KeycloakAdmin] object, told apart by the token it was built with. *)
Inductive KeycloakAdmin : Type := AdminWith (token : pyval).

(** Requests of the admin side. *)
Inductive AdminCall : Type :=
| TokenRequest
| GetUsers (query : pyval).

(** The fields of [self] the admin side reads and writes, with what has been
    consumed of the outside world: how many times the clock was read and a
    token requested, and the requests made, in order. *)
Record Self : Type := mkSelf {
  _admin_adapter : option KeycloakAdmin;
  _admin_token_expiry : float;
  clock_reads : nat;
  token_requests : nat;
  admin_log : list AdminCall
}.

(** The outside world of the admin side: the configured secret, the
    successive readings of [time.time()] (binary64, as in Python), the
    binary64 value [json.loads] gives each JSON number, the successive
    answers to
    [openid_adapter.token(grant_type="client_credentials")], the
    [KeycloakAdmin] constructor and the answer of [get_users] to a query. *)
Record World : Type := mkWorld {
  CLIENT_SECRET_KEY : option string;
  time_time : nat -> float;
  json_float : Z -> Z -> float;
  openid_token : nat -> outcome pyval;
  new_KeycloakAdmin : pyval -> outcome KeycloakAdmin;
  admin_get_users : KeycloakAdmin -> pyval -> outcome pyval
}.

(** State and exceptions over any state; [M] is its instance at [State]. *)
Definition ST (S A : Type) : Type := S -> outcome A * S.

Definition st_ret {S A : Type} (a : A) : ST S A := fun s => (Returns a, s).

Definition st_raise {S A : Type} (e : exn) : ST S A := fun s => (Raises e, s).

Definition st_lift {S A : Type} (o : outcome A) : ST S A := fun s => (o, s).

Definition st_bind {S A B : Type} (m : ST S A) (k : A -> ST S B) : ST S B :=
  fun s =>
    match m s with
    | (Returns a, s') => k a s'
    | (Raises e, s') => (Raises e, s')
    end.

Notation "x <~~ m ;; k" := (st_bind m (fun x => k))
  (at level 61, m at next level, right associativity).

Fixpoint st_handle {S A : Type} (clauses : list ((exn -> bool) * (exn -> ST S A)))
  (e : exn) : ST S A :=
  match clauses with
  | [] => st_raise e
  | (matches, handler) :: rest => if matches e then handler e else st_handle rest e
  end.

Definition st_try_except {S A : Type} (body : ST S A)
  (clauses : list ((exn -> bool) * (exn -> ST S A))) : ST S A :=
  fun s =>
    match body s with
    | (Returns a, s') => (Returns a, s')
    | (Raises e, s') => st_handle clauses e s'
    end.

Definition set_admin_adapter (admin : option KeycloakAdmin) : ST Self unit :=
  fun s => (Returns tt,
            mkSelf admin (_admin_token_expiry s) (clock_reads s) (token_requests s)
              (admin_log s)).

Definition set_admin_token_expiry (expiry : float) : ST Self unit :=
  fun s => (Returns tt,
            mkSelf (_admin_adapter s) expiry (clock_reads s) (token_requests s)
              (admin_log s)).

(** [not value] for an optional string of the configuration. *)
Definition config_unset (value : option string) : bool :=
  match value with
  | None => true
  | Some s => String.eqb s EmptyString
  end.

Definition users_query (field query : string) (max : Z) : pyval :=
  PDict [(field, PStr query); ("max", PInt max)].

(** [{user["id"] for user in users}], as the list of the ids met. *)
Fixpoint user_ids (users : list pyval) : outcome (list pyval) :=
  match users with
  | [] => Returns []
  | user :: rest =>
      id <- py_getitem user "id" ;;
      _ <- py_hashable id ;;
      ids <- user_ids rest ;;
      Returns (id :: ids)
  end.

(** [[user for user in found if user["id"] not in ids]] *)
Fixpoint new_users (json_float : Z -> Z -> float) (ids : list pyval) (found : list pyval)
  : outcome (list pyval) :=
  match found with
  | [] => Returns []
  | user :: rest =>
      id <- py_getitem user "id" ;;
      _ <- py_hashable id ;;
      more <- new_users json_float ids rest ;;
      Returns (if existsb (py_key_eqb json_float id) ids then more else user :: more)
  end.

Module AdminSide.
Section Methods.

Variable w : World.

(** [time.time()] *)
Definition read_clock : ST Self float :=
  fun s => (Returns (time_time w (clock_reads s)),
            mkSelf (_admin_adapter s) (_admin_token_expiry s) (S (clock_reads s))
              (token_requests s) (admin_log s)).

(** [self.openid_adapter.token(grant_type="client_credentials")] *)
Definition call_token : ST Self pyval :=
  fun s => (openid_token w (token_requests s),
            mkSelf (_admin_adapter s) (_admin_token_expiry s) (clock_reads s)
              (S (token_requests s)) (admin_log s ++ [TokenRequest])).

(** [admin.get_users(query)] *)
Definition call_get_users (admin : KeycloakAdmin) (query : pyval) : ST Self pyval :=
  fun s => (admin_get_users w admin query,
            mkSelf (_admin_adapter s) (_admin_token_expiry s) (clock_reads s)
              (token_requests s) (admin_log s ++ [GetUsers query])).

Definition _initialize_admin_client : ST Self unit :=
  st_try_except
    (token <~~ call_token ;;
     now <~~ read_clock ;;
     expires_in <~~ st_lift (py_get token "expires_in" (PInt 60)) ;;
     sum <~~ st_lift (py_float_add (json_float w) now expires_in) ;;
     _ <~~ set_admin_token_expiry (sum - 30)%float ;;
     admin <~~ st_lift (new_KeycloakAdmin w token) ;;
     set_admin_adapter (Some admin))
    [(isinstance_KeycloakError,
      fun _ => _ <~~ set_admin_adapter None ;; set_admin_token_expiry 0%float)].

(** [self._admin_adapter is None or time.time() >= self._admin_token_expiry]:
    the clock is read only when a client is held. *)
Definition needs_refresh : ST Self bool :=
  fun s =>
    match _admin_adapter s with
    | None => (Returns true, s)
    | Some _ => (now <~~ read_clock ;; st_ret (PrimFloat.leb (_admin_token_expiry s) now)) s
    end.

(** The property [admin_adapter]. *)
Definition admin_adapter : ST Self KeycloakAdmin :=
  if config_unset (CLIENT_SECRET_KEY w) then
    st_raise (PyExc ValueError
                "Admin client not available, provide client_secret_key to use admin features")
  else
    refresh <~~ needs_refresh ;;
    _ <~~ (if refresh then _initialize_admin_client else st_ret tt) ;;
    fun s =>
      match _admin_adapter s with
      | None => (Raises (PyExc ValueError "Failed to initialize admin client"), s)
      | Some admin => (Returns admin, s)
      end.

(** The admin part of [__init__], on the fields of a new object. *)
Definition init_admin : ST Self unit :=
  _ <~~ set_admin_adapter None ;;
  _ <~~ set_admin_token_expiry 0%float ;;
  if config_unset (CLIENT_SECRET_KEY w) then st_ret tt else _initialize_admin_client.

(** One of the three follow-up searches of [search_users]. *)
Definition search_more (field query : string) (max_results : Z) (users : list pyval)
  : ST Self (list pyval) :=
  if Z.of_nat (List.length users) <? max_results then
    let remaining := max_results - Z.of_nat (List.length users) in
    admin <~~ admin_adapter ;;
    answer <~~ call_get_users admin (users_query field query remaining) ;;
    st_lift (ids <- user_ids users ;;
             found <- py_iter answer ;;
             fresh <- new_users (json_float w) ids found ;;
             Returns (users ++ fresh))
  else st_ret users.

(** The body of [search_users], which its cache decorator runs on a miss. *)
Definition search_users (query : string) (max_results : Z) : ST Self (list pyval) :=
  st_try_except
    (admin <~~ admin_adapter ;;
     answer <~~ call_get_users admin (users_query "username" query max_results) ;;
     users <~~ st_lift (py_iter answer) ;;
     users <~~ search_more "email" query max_results users ;;
     users <~~ search_more "firstName" query max_results users ;;
     users <~~ search_more "lastName" query max_results users ;;
     st_ret (py_slice_to users max_results))
    [(isinstance_KeycloakError,
      fun e => st_raise (PyExc ValueError ("Failed to search users: " ++ exc_str e)%string))].

End Methods.
End AdminSide.

Import AdminSide.

Module UserInfo.
Section Methods.

Variable env : Env.

(** [self.openid_adapter.userinfo(token)] *)
Variable openid_userinfo : string -> outcome pyval.

(** The cache decorator of [_get_userinfo_cached]
    ([ttl_cache_decorator(ttl_seconds=30, maxsize=100)]), whose source is
    not at hand: any function from the decorated method to a method. *)
Variable userinfo_cache : (string -> M pyval) -> string -> M pyval.

Definition _get_userinfo_cached : string -> M pyval :=
  userinfo_cache (fun token => lift (openid_userinfo token)).

Definition get_userinfo (token : string) : M pyval :=
  valid <~ validate_token env token ;;
  if negb valid then raise (PyExc ValueError "Invalid token provided")
  else
    try_except (_get_userinfo_cached token)
      [(isinstance_KeycloakError,
        fun e => raise (PyExc ValueError ("Failed to get user info: " ++ exc_str e)%string))].

End Methods.
End UserInfo.

Import UserInfo.

(** Whether an access to [admin_adapter] finds a refresh due: a secret is
    configured, and no client is held or the clock has reached the expiry. *)
Definition refresh_due (w : World) (s : Self) : bool :=
  negb (config_unset (CLIENT_SECRET_KEY w))
  && match _admin_adapter s with
     | None => true
     | Some _ => PrimFloat.leb (_admin_token_expiry s) (time_time w (clock_reads s))
     end.

(** The ids of a list of users that are JSON objects with a [str] under
    ["id"], as the admin API lists them; [None] for any other list. *)
Fixpoint id_strings (users : list pyval) : option (list string) :=
  match users with
  | [] => Some []
  | PDict items :: rest =>
      match dict_lookup items "id", id_strings rest with
      | Some (PStr id), Some ids => Some (id :: ids)
      | _, _ => None
      end
  | _ :: _ => None
  end.

(** An answer of [get_users] as the admin API gives it: a list of users
    with ids, no id twice. *)
Definition users_answer (answer : pyval) : Prop :=
  exists users ids, answer = PList users /\ id_strings users = Some ids /\ NoDup ids.

(** An id that is not among [ids]. *)
Definition unseen (ids : list string) (id : string) : bool :=
  negb (existsb (String.eqb id) ids).






(* ================================================================= *)
(** ** A realm to run the admin side in *)

Definition service_token : pyval :=
  PDict [("access_token", PStr "svc.jwt"); ("expires_in", PInt 300)].

Definition user_named (id username : string) : pyval :=
  PDict [("id", PStr id); ("username", PStr username)].

(** The users the realm finds for the query ["al"]: one by username, two by
    e-mail (one of them the same user), none by first name, one by last
    name. *)
Definition realm_get_users (admin : KeycloakAdmin) (query : pyval) : outcome pyval :=
  match query with
  | PDict ((field, PStr _) :: _) =>
      if String.eqb field "username" then Returns (PList [user_named "u1" "alice"])
      else if String.eqb field "email" then
        Returns (PList [user_named "u1" "alice"; user_named "u2" "alan"])
      else if String.eqb field "lastName" then Returns (PList [user_named "u3" "sal"])
      else Returns (PList [])
  | _ => Raises (PyExc KeycloakError "400: Bad Request")
  end.

(** A clock that shows [start] seconds and advances by one second per
    reading. *)
Definition clock_from (start : Z) (n : nat) : float :=
  SF2Prim (binary_normalize prec emax (start + Z.of_nat n) 0 false).

(** The reading of JSON numbers in the realm's answers, which hold whole
    numbers only: the number of a literal with a non-negative exponent,
    rounded to binary64. *)
Definition decimal_float (m e : Z) : float :=
  SF2Prim (binary_normalize prec emax (m * 10 ^ e) 0 false).

(** The realm seen from the admin side: a configured secret, a clock that
    advances by one second per reading from 1000, tokens that live 300
    seconds. *)
Definition admin_realm : World :=
  {| CLIENT_SECRET_KEY := Some "s3cr3t";
     time_time := clock_from 1000;
     json_float := decimal_float;
     openid_token := fun _ => Returns service_token;
     new_KeycloakAdmin := fun token => Returns (AdminWith token);
     admin_get_users := realm_get_users |}.

(** The same realm refusing the client's credentials. *)
Definition refusing_realm : World :=
  {| CLIENT_SECRET_KEY := Some "wrong";
     time_time := clock_from 1000;
     json_float := decimal_float;
     openid_token := fun _ => Raises (PyExc KeycloakError "401: Unauthorized");
     new_KeycloakAdmin := fun token => Returns (AdminWith token);
     admin_get_users := realm_get_users |}.

(** A realm whose clock stands still at 2^31 - 2^-22 seconds and whose
    tokens live 30 seconds. *)
Definition still_realm : World :=
  {| CLIENT_SECRET_KEY := Some "s3cr3t";
     time_time := fun _ => 0x1.fffffffffffffp+30%float;
     json_float := decimal_float;
     openid_token := fun _ => Returns (PDict [("access_token", PStr "svc.jwt");
                                              ("expires_in", PInt 30)]);
     new_KeycloakAdmin := fun token => Returns (AdminWith token);
     admin_get_users := realm_get_users |}.

(** The realm out of reach of the admin side. *)
Definition offline_realm : World :=
  {| CLIENT_SECRET_KEY := Some "s3cr3t";
     time_time := clock_from 1000;
     json_float := decimal_float;
     openid_token :=
       fun _ => Raises (PyExc (LibraryError "ConnectionError") "Connection refused");
     new_KeycloakAdmin := fun token => Returns (AdminWith token);
     admin_get_users := realm_get_users |}.

(** An adapter holding a client whose token expired at time 900. *)
Definition stale_self : Self := mkSelf (Some (AdminWith service_token)) 900%float 0 0 [].

(** The fields of a new object, before [__init__] runs. *)
Definition blank_self : Self := mkSelf None 0%float 0 0 [].

(* ================================================================= *)
(** ** Reading results *)

Lemma isinstance_Exception_all (e : exn) : isinstance_Exception e = true.
Proof. destruct e as [[] msg]; reflexivity. Qed.

(** Settles which [except] clause takes an exception, and finishes. *)
Ltac caught :=
  cbn [handle fst snd];
  repeat match goal with
    | |- context [isinstance_KeycloakError ?e] => destruct (isinstance_KeycloakError e)
    | |- context [isinstance_Exception ?e] => rewrite (isinstance_Exception_all e)
    end;
  reflexivity.

Lemma try_except_Exception_false (body : M bool) (st : State) :
  fst (try_except body [(isinstance_Exception, fun _ => ret false)] st)
  = Returns (denied_on_error (fst (body st))).
Proof.
  unfold try_except.
  destruct (body st) as [[b | e] st']; [reflexivity | caught].
Qed.

Lemma try_except_Exception_state (body : M bool) (st : State) :
  snd (try_except body [(isinstance_Exception, fun _ => ret false)] st) = snd (body st).
Proof.
  unfold try_except.
  destruct (body st) as [[b | e] st']; [reflexivity | caught].
Qed.

Lemma fst_bind_lift {A B : Type} (m : M A) (f : A -> outcome B) (st : State) :
  fst ((x <~ m ;; lift (f x)) st) = (x <- fst (m st) ;; f x).
Proof. unfold bind, lift. destruct (m st) as [[a | e] st']; reflexivity. Qed.

Lemma snd_bind_lift {A B : Type} (m : M A) (f : A -> outcome B) (st : State) :
  snd ((x <~ m ;; lift (f x)) st) = snd (m st).
Proof. unfold bind, lift. destruct (m st) as [[a | e] st']; reflexivity. Qed.

Section Results.

Variable env : Env.

Lemma decode_with_public_key_fst (token : string) (st : State) :
  fst (decode_with_public_key env token st)
  = (key <- fst (get_public_key env st) ;; openid_decode_token env token key).
Proof. unfold decode_with_public_key. apply fst_bind_lift. Qed.

Lemma decode_with_public_key_snd (token : string) (st : State) :
  snd (decode_with_public_key env token st) = snd (get_public_key env st).
Proof. unfold decode_with_public_key. apply snd_bind_lift. Qed.

Lemma has_role_fst (token role_name : string) (st : State) :
  fst (has_role env token role_name st)
  = Returns (denied_on_error
               (token_info <- fst (decode_with_public_key env token st) ;;
                has_role_claims token_info role_name)).
Proof.
  unfold has_role. rewrite try_except_Exception_false.
  unfold has_role_try. rewrite fst_bind_lift. reflexivity.
Qed.

Lemma has_any_role_fst (token : string) (role_names : list string) (st : State) :
  fst (has_any_role env token role_names st)
  = Returns (denied_on_error
               (token_info <- fst (decode_with_public_key env token st) ;;
                has_any_role_claims token_info role_names)).
Proof.
  unfold has_any_role. rewrite try_except_Exception_false.
  unfold has_any_role_try. rewrite fst_bind_lift. reflexivity.
Qed.

Lemma has_role_snd (token role_name : string) (st : State) :
  snd (has_role env token role_name st) = snd (get_public_key env st).
Proof.
  unfold has_role. rewrite try_except_Exception_state.
  unfold has_role_try. rewrite snd_bind_lift. apply decode_with_public_key_snd.
Qed.

Lemma has_any_role_snd (token : string) (role_names : list string) (st : State) :
  snd (has_any_role env token role_names st) = snd (get_public_key env st).
Proof.
  unfold has_any_role. rewrite try_except_Exception_state.
  unfold has_any_role_try. rewrite snd_bind_lift. apply decode_with_public_key_snd.
Qed.

Lemma check_permissions_handled (body : M bool) (st : State) :
  fst (try_except body
         [(isinstance_KeycloakError, fun _ => ret false);
          (isinstance_Exception, fun _ => ret false)] st)
  = Returns (denied_on_error (fst (body st))).
Proof.
  unfold try_except.
  destruct (body st) as [[b | e] st']; [reflexivity | caught].
Qed.

Lemma check_permissions_fst (token resource scope : string) (st : State) :
  fst (check_permissions env token resource scope st)
  = Returns (denied_on_error
               (permissions <- openid_uma_permissions env token [requirement resource scope] ;;
                read_permissions permissions resource scope)).
Proof.
  unfold check_permissions. rewrite check_permissions_handled.
  unfold check_permissions_try. rewrite fst_bind_lift. reflexivity.
Qed.

Lemma check_permissions_snd (token resource scope : string) (st : State) :
  snd (check_permissions env token resource scope st)
  = log_call (UmaPermissions token [requirement resource scope]) st.
Proof.
  unfold check_permissions, try_except, check_permissions_try, bind, lift,
    call_uma_permissions.
  destruct (openid_uma_permissions env token [requirement resource scope]) as [v | e].
  - destruct (read_permissions v resource scope); [reflexivity | caught].
  - caught.
Qed.

End Results.

(* ================================================================= *)
(** ** Deny on error: [has_role], [has_any_role], [check_permissions],
       [validate_token] *)

Lemma fails_closed_intro (try_block predicate : M bool) (st : State) :
  fst (predicate st) = Returns (denied_on_error (fst (try_block st))) ->
  fails_closed try_block predicate st.
Proof.
  intros Hfst. split.
  - eexists. exact Hfst.
  - intros e He. rewrite Hfst, He. reflexivity.
Qed.

(** C1. Each of [has_role], [has_any_role] and [check_permissions] returns a
    boolean in every state, for every token and every behaviour of the
    collaborators; it returns [False] whenever anything inside its [try]
    block raises, whatever the class of the exception.  In particular a
    failure to get the public key, a token the library refuses to decode
    (bad signature, malformed, expired), claims the role lookup cannot
    read, a failing permission request and an answer of the endpoint the
    method cannot read all give [False]. *)
Theorem authorization_predicates_fail_closed
  (env : Env) (st : State) (token role_name : string) (role_names : list string)
  (resource scope : string) :
  fails_closed (has_role_try env token role_name) (has_role env token role_name) st
  /\ fails_closed (has_any_role_try env token role_names)
       (has_any_role env token role_names) st
  /\ fails_closed (check_permissions_try env token resource scope)
       (check_permissions env token resource scope) st
  /\ (forall e, fst (get_public_key env st) = Raises e ->
        fst (has_role env token role_name st) = Returns false
        /\ fst (has_any_role env token role_names st) = Returns false)
  /\ (forall key e,
        fst (get_public_key env st) = Returns key ->
        openid_decode_token env token key = Raises e ->
        fst (has_role env token role_name st) = Returns false
        /\ fst (has_any_role env token role_names st) = Returns false)
  /\ (forall key token_info e,
        fst (get_public_key env st) = Returns key ->
        openid_decode_token env token key = Returns token_info ->
        (has_role_claims token_info role_name = Raises e ->
         fst (has_role env token role_name st) = Returns false)
        /\ (has_any_role_claims token_info role_names = Raises e ->
            fst (has_any_role env token role_names st) = Returns false))
  /\ (forall e,
        openid_uma_permissions env token [requirement resource scope] = Raises e ->
        fst (check_permissions env token resource scope st) = Returns false)
  /\ (forall answer e,
        openid_uma_permissions env token [requirement resource scope] = Returns answer ->
        read_permissions answer resource scope = Raises e ->
        fst (check_permissions env token resource scope st) = Returns false).
Proof.
  split; [| split; [| split; [| split; [| split; [| split; [| split]]]]]].
  - apply fails_closed_intro. unfold has_role. apply try_except_Exception_false.
  - apply fails_closed_intro. unfold has_any_role. apply try_except_Exception_false.
  - apply fails_closed_intro. unfold check_permissions. apply check_permissions_handled.
  - intros e Hkey.
    rewrite has_role_fst, has_any_role_fst, decode_with_public_key_fst, Hkey.
    split; reflexivity.
  - intros key e Hkey Hdecode.
    rewrite has_role_fst, has_any_role_fst, decode_with_public_key_fst, Hkey.
    cbn [obind]. rewrite Hdecode. split; reflexivity.
  - intros key token_info e Hkey Hdecode.
    rewrite has_role_fst, has_any_role_fst, decode_with_public_key_fst, Hkey.
    cbn [obind]. rewrite Hdecode. cbn [obind].
    split; intros Hclaims; rewrite Hclaims; reflexivity.
  - intros e Hanswer. rewrite check_permissions_fst, Hanswer. reflexivity.
  - intros answer e Hanswer Hread.
    rewrite check_permissions_fst, Hanswer. cbn [obind]. rewrite Hread. reflexivity.
Qed.

(** C10. [validate_token] returns a boolean in every state (it never raises):
    [True] exactly when [get_public_key] gives a key and the library decodes
    the token with it, [False] otherwise, a failure of [get_public_key]
    included. *)
Theorem validate_token_iff_decodes (env : Env) (st : State) (token : string) :
  (exists b, fst (validate_token env token st) = Returns b)
  /\ (fst (validate_token env token st) = Returns true <->
      exists key token_info,
        fst (get_public_key env st) = Returns key
        /\ openid_decode_token env token key = Returns token_info)
  /\ (forall e, fst (get_public_key env st) = Raises e ->
        fst (validate_token env token st) = Returns false)
  /\ (forall key e, fst (get_public_key env st) = Returns key ->
        openid_decode_token env token key = Raises e ->
        fst (validate_token env token st) = Returns false).
Proof.
  assert (Hfst : fst (validate_token env token st)
                 = Returns (denied_on_error
                              (_ <- (key <- fst (get_public_key env st) ;;
                                     openid_decode_token env token key) ;;
                               Returns true))).
  { unfold validate_token. rewrite try_except_Exception_false.
    unfold validate_token_try, bind, ret.
    rewrite <- decode_with_public_key_fst.
    destruct (decode_with_public_key env token st) as [[ti | e] st']; reflexivity. }
  rewrite Hfst. repeat split.
  - eexists. reflexivity.
  - destruct (fst (get_public_key env st)) as [key | e]; simpl; [| discriminate].
    destruct (openid_decode_token env token key) as [ti | e] eqn:Hdec; simpl;
      [| discriminate].
    intros _. exists key, ti. split; [reflexivity | exact Hdec].
  - intros (key & ti & Hkey & Hdec). rewrite Hkey. simpl. rewrite Hdec. reflexivity.
  - intros e He. rewrite He. reflexivity.
  - intros key e Hkey Hdec. rewrite Hkey. simpl. rewrite Hdec. reflexivity.
Qed.

(* ================================================================= *)
(** ** [has_any_role] against [has_role] *)

Lemma any_role_in_singleton (role : string) (roles : pyval) :
  any_role_in [role] roles = py_in role roles.
Proof.
  simpl. destruct (py_in role roles) as [[|] | e]; reflexivity.
Qed.

Lemma has_any_role_clients_singleton (role : string) (clients : list pyval) :
  has_any_role_clients [role] clients = has_role_clients role clients.
Proof.
  induction clients as [| client rest IH]; [reflexivity |].
  cbn [has_any_role_clients has_role_clients].
  destruct (py_get client "roles" (PList [])) as [client_roles | e]; [| reflexivity].
  cbn [obind]. rewrite any_role_in_singleton, IH. reflexivity.
Qed.

Lemma has_any_role_claims_singleton (token_info : pyval) (role : string) :
  has_any_role_claims token_info [role] = has_role_claims token_info role.
Proof.
  unfold has_any_role_claims, has_role_claims.
  destruct (py_get token_info "realm_access" (PDict [])) as [realm_access | e];
    [| reflexivity].
  cbn [obind].
  destruct (py_get realm_access "roles" (PList [])) as [roles | e]; [| reflexivity].
  cbn [obind]. rewrite any_role_in_singleton.
  destruct (py_in role roles) as [[|] | e]; [reflexivity | | reflexivity].
  cbn [obind].
  destruct (py_get token_info "resource_access" (PDict [])) as [resource_access | e];
    [| reflexivity].
  cbn [obind].
  destruct (py_values resource_access) as [clients | e]; [| reflexivity].
  cbn [obind]. apply has_any_role_clients_singleton.
Qed.

(** C3. [has_any_role(t, [r])] and [has_role(t, r)] give the same result (and
    leave the adapter in the same state) for every token, decodable or not,
    whatever its claims look like. *)
Theorem has_any_role_singleton_eq_has_role
  (env : Env) (st : State) (token role : string) :
  has_any_role env token [role] st = has_role env token role st.
Proof.
  unfold has_any_role, has_role, try_except, has_any_role_try, has_role_try, bind, lift.
  destruct (decode_with_public_key env token st) as [[token_info | e] st'];
    [| reflexivity].
  rewrite has_any_role_claims_singleton. reflexivity.
Qed.

Lemma any_role_in_nil (roles : pyval) : any_role_in [] roles = Returns false.
Proof. reflexivity. Qed.

Lemma has_any_role_clients_nil (clients : list pyval) :
  denied_on_error (has_any_role_clients [] clients) = false.
Proof.
  induction clients as [| client rest IH]; [reflexivity |].
  cbn [has_any_role_clients].
  destruct (py_get client "roles" (PList [])) as [client_roles | e]; [| reflexivity].
  exact IH.
Qed.

Lemma has_any_role_claims_nil (token_info : pyval) :
  denied_on_error (has_any_role_claims token_info []) = false.
Proof.
  unfold has_any_role_claims.
  destruct (py_get token_info "realm_access" (PDict [])) as [realm_access | e];
    [| reflexivity].
  cbn [obind].
  destruct (py_get realm_access "roles" (PList [])) as [roles | e]; [| reflexivity].
  cbn [obind any_role_in].
  destruct (py_get token_info "resource_access" (PDict [])) as [resource_access | e];
    [| reflexivity].
  cbn [obind].
  destruct (py_values resource_access) as [clients | e]; [| reflexivity].
  apply has_any_role_clients_nil.
Qed.

(** C9. With an empty list of role names [has_any_role] returns [False] for
    every token, whatever roles its claims hold. *)
Theorem has_any_role_no_names (env : Env) (st : State) (token : string) :
  fst (has_any_role env token [] st) = Returns false.
Proof.
  rewrite has_any_role_fst. f_equal.
  destruct (fst (decode_with_public_key env token st)) as [token_info | e];
    [| reflexivity].
  apply has_any_role_claims_nil.
Qed.

(* ================================================================= *)
(** ** [has_role] as set membership *)

Lemma existsb_py_eq_str (s : string) (elems : list pyval) :
  existsb (fun v => py_eq_str v s) elems = true <-> In s (str_elems elems).
Proof.
  induction elems as [| v rest IH]; simpl; [split; [discriminate | tauto] |].
  destruct v; simpl; try exact IH.
  rewrite orb_true_iff, IH, String.eqb_eq. tauto.
Qed.

Lemma role_set_py_in (obj : pyval) (roles : list string) (role_name : string) :
  role_set obj = Some roles ->
  exists b, (client_roles <- py_get obj "roles" (PList []) ;; py_in role_name client_roles)
            = Returns b
            /\ (b = true <-> In role_name roles).
Proof.
  unfold role_set, py_get. destruct obj as [| | | | | | items]; try discriminate.
  destruct (dict_lookup items "roles") as [[| | | | | elems |] |]; try discriminate;
    intros [= <-]; cbn [obind py_in].
  - eexists. split; [reflexivity | apply existsb_py_eq_str].
  - eexists. split; [reflexivity |]. simpl. split; [discriminate | tauto].
Qed.

Lemma has_role_clients_member
  (clients : list (string * pyval)) (sets : list (string * list string))
  (role_name : string) :
  client_role_sets clients = Some sets ->
  exists b, has_role_clients role_name (map snd clients) = Returns b
            /\ (b = true <->
                exists client_id roles, In (client_id, roles) sets /\ In role_name roles).
Proof.
  revert sets. induction clients as [| [client_id client] rest IH]; intros sets Hsets.
  - injection Hsets as <-. exists false. split; [reflexivity |].
    split; [discriminate | intros (c & r & [] & _)].
  - cbn [client_role_sets] in Hsets.
    destruct (role_set client) as [roles |] eqn:Hroles; [| discriminate].
    destruct (client_role_sets rest) as [sets' |]; [| discriminate].
    injection Hsets as <-.
    destruct (role_set_py_in client roles role_name Hroles) as (found & Hfound & Hin).
    destruct (IH sets' eq_refl) as (b & Hb & Hrest).
    cbn [map snd has_role_clients].
    destruct (py_get client "roles" (PList [])) as [client_roles0 | e];
      cbn [obind] in Hfound |- *; [| discriminate].
    rewrite Hfound. cbn [obind]. destruct found.
    + exists true. split; [reflexivity |]. split; [| reflexivity].
      intros _. exists client_id, roles. split; [left; reflexivity | apply Hin; reflexivity].
    + exists b. split; [exact Hb |]. rewrite Hrest. split.
      * intros (c & r & Hc & Hr). exists c, r. split; [right; exact Hc | exact Hr].
      * intros (c & r & [Heq | Hc] & Hr).
        -- injection Heq as <- <-. apply Hin in Hr. discriminate.
        -- exists c, r. split; assumption.
Qed.

Lemma has_role_claims_member
  (token_info : pyval) (claims : DecodedClaims) (role_name : string) :
  decoded_claims token_info = Some claims ->
  exists b, has_role_claims token_info role_name = Returns b
            /\ (b = true <-> holds_role claims role_name).
Proof.
  unfold decoded_claims, has_role_claims, holds_role.
  destruct token_info as [| | | | | | items]; try discriminate.
  cbn [py_get obind].
  intros Hclaims.
  set (realm_access := match dict_lookup items "realm_access" with
                       | Some v => v
                       | None => PDict []
                       end).
  assert (Hrealm : exists realm,
             role_set realm_access = Some realm
             /\ exists clients,
                 match dict_lookup items "resource_access" with
                 | None => Some []
                 | Some (PDict cs) => client_role_sets cs
                 | Some _ => None
                 end = Some clients
                 /\ claims = mkClaims realm clients).
  { subst realm_access.
    destruct (dict_lookup items "realm_access") as [ra |].
    - destruct (role_set ra) as [realm |]; [| discriminate].
      exists realm. split; [reflexivity |].
      destruct (match dict_lookup items "resource_access" with
                | None => Some []
                | Some (PDict cs) => client_role_sets cs
                | Some _ => None
                end) as [clients |]; [| discriminate].
      exists clients. split; [reflexivity |]. injection Hclaims as <-. reflexivity.
    - exists []. split; [reflexivity |].
      destruct (match dict_lookup items "resource_access" with
                | None => Some []
                | Some (PDict cs) => client_role_sets cs
                | Some _ => None
                end) as [clients |]; [| discriminate].
      exists clients. split; [reflexivity |]. injection Hclaims as <-. reflexivity. }
  destruct Hrealm as (realm & Hrealm & clients & Hclients & ->). cbn [realm_roles client_roles].
  destruct (role_set_py_in realm_access realm role_name Hrealm) as (found & Hfound & Hin).
  destruct (py_get realm_access "roles" (PList [])) as [roles | e];
    cbn [obind] in Hfound |- *; [| discriminate].
  rewrite Hfound. cbn [obind]. destruct found.
  - exists true. split; [reflexivity |]. split; [| reflexivity].
    intros _. left. apply Hin. reflexivity.
  - assert (Hnot : ~ In role_name realm) by (intros Hr; apply Hin in Hr; discriminate).
    destruct (dict_lookup items "resource_access") as [[| | | | | | cs] |];
      try discriminate.
    + destruct (has_role_clients_member cs clients role_name Hclients) as (b & Hb & Hiff).
      cbn [py_values obind]. exists b. split; [exact Hb |]. rewrite Hiff. tauto.
    + injection Hclients as <-. cbn [py_values obind map has_role_clients].
      exists false. split; [reflexivity |]. split; [discriminate |].
      intros [Hr | (c & r & [] & _)]. contradiction.
Qed.

(** C2. For a token that [get_public_key]'s key decodes, with claims of
    Keycloak's shape (roles, where present, are lists under
    [realm_access.roles] and [resource_access.<client>.roles]), [has_role]
    returns [True] exactly when the role name is among the realm roles or
    among the roles of at least one client, and [False] otherwise. *)
Theorem has_role_iff_member
  (env : Env) (st : State) (token role_name : string) (key : JWK)
  (token_info : pyval) (claims : DecodedClaims) :
  fst (get_public_key env st) = Returns key ->
  openid_decode_token env token key = Returns token_info ->
  decoded_claims token_info = Some claims ->
  exists b, fst (has_role env token role_name st) = Returns b
            /\ (b = true <-> holds_role claims role_name).
Proof.
  intros Hkey Hdecode Hclaims.
  rewrite has_role_fst, decode_with_public_key_fst, Hkey. cbn [obind].
  rewrite Hdecode. cbn [obind].
  destruct (has_role_claims_member token_info claims role_name Hclaims) as (b & Hb & Hiff).
  exists b. rewrite Hb. split; [reflexivity | exact Hiff].
Qed.

(* ================================================================= *)
(** ** [check_permissions] against the endpoint's answer *)

Lemma py_eq_str_true (v : pyval) (s : string) : py_eq_str v s = true <-> v = PStr s.
Proof.
  destruct v; simpl; try (split; [discriminate | intros [=]]).
  rewrite String.eqb_eq. split; [intros -> | intros [=]]; congruence.
Qed.











(* ================================================================= *)
(** ** The public-key cache: [get_public_key] *)

Lemma fetch_public_key_run (env : Env) (st : State) :
  fetch_public_key env st
  = (match fetched_key env with
     | Returns key => Returns key
     | Raises cause => Raises (key_unavailable cause)
     end,
     log_call FetchPublicKey st).
Proof.
  unfold fetch_public_key, try_except, bind, lift, call_public_key, fetched_key, pem_of.
  destruct (openid_public_key env) as [keys_info | e]; cbn [obind]; [| caught].
  destruct (jwk_from_pem env _) as [key | e]; [reflexivity | caught].
Qed.

Lemma get_public_key_hit (env : Env) (st : State) (key : JWK) :
  usable_key env st = Some key -> get_public_key env st = (Returns key, st).
Proof.
  unfold usable_key, get_public_key, ttl_cache_decorator.
  destruct (public_key_cache st) as [[held expiry] |]; [| discriminate].
  destruct (clock env <? expiry); [| discriminate].
  intros [= ->]. reflexivity.
Qed.

Lemma get_public_key_miss (env : Env) (st : State) :
  usable_key env st = None ->
  get_public_key env st
  = match fetched_key env with
    | Returns key =>
        (Returns key, mkState (Some (key, clock env + 3600)) (network_log st ++ [FetchPublicKey]))
    | Raises cause => (Raises (key_unavailable cause), log_call FetchPublicKey st)
    end.
Proof.
  unfold usable_key, get_public_key, ttl_cache_decorator.
  rewrite fetch_public_key_run.
  destruct (public_key_cache st) as [[held expiry] |].
  - destruct (clock env <? expiry); [discriminate |]. intros _.
    destruct (fetched_key env); reflexivity.
  - intros _. destruct (fetched_key env); reflexivity.
Qed.

(** Whatever makes [get_public_key] fail, its caller sees the adapter's
    [ValueError]. *)
Lemma get_public_key_raises (env : Env) (st : State) (e : exn) :
  fst (get_public_key env st) = Raises e ->
  usable_key env st = None
  /\ exists cause, fetched_key env = Raises cause /\ e = key_unavailable cause.
Proof.
  destruct (usable_key env st) as [key |] eqn:Husable.
  - rewrite (get_public_key_hit env st key Husable). discriminate.
  - rewrite (get_public_key_miss env st Husable).
    destruct (fetched_key env) as [key | cause]; [discriminate |].
    intros [= <-]. split; [reflexivity |]. exists cause. split; reflexivity.
Qed.

(** C6. [get_public_key] under its one-hour cache.  When a key is held and
    its recorded expiry has not passed, the key is returned, the state is
    unchanged and no network call is made.  Otherwise (no key held, or the
    expiry has passed) exactly one request for the realm's key is made: when
    it succeeds the key is returned and stored with the expiry "time of the
    call + 3600 seconds"; when it fails, whatever the cause, the call raises
    the adapter's key-unavailability error and nothing is stored. *)
Theorem get_public_key_refresh_policy (env : Env) (st : State) :
  match usable_key env st with
  | Some key => get_public_key env st = (Returns key, st)
  | None =>
      network_log (snd (get_public_key env st)) = network_log st ++ [FetchPublicKey]
      /\ match fetched_key env with
         | Returns key =>
             fst (get_public_key env st) = Returns key
             /\ public_key_cache (snd (get_public_key env st))
                = Some (key, clock env + 3600)
         | Raises cause =>
             fst (get_public_key env st) = Raises (key_unavailable cause)
             /\ public_key_cache (snd (get_public_key env st)) = public_key_cache st
         end
  end.
Proof.
  destruct (usable_key env st) as [key |] eqn:Husable.
  - apply get_public_key_hit. exact Husable.
  - rewrite (get_public_key_miss env st Husable).
    destruct (fetched_key env) as [key | cause]; repeat split.
Qed.

(** A stored key is served, without a request, by every later call made
    before its hour has passed, and refetched by the first call after. *)
Lemma get_public_key_within_ttl (env later : Env) (st : State) (key : JWK) :
  usable_key env st = None ->
  fetched_key env = Returns key ->
  (clock later < clock env + 3600 ->
   get_public_key later (snd (get_public_key env st))
   = (Returns key, snd (get_public_key env st)))
  /\ (clock env + 3600 <= clock later ->
      network_log (snd (get_public_key later (snd (get_public_key env st))))
      = network_log st ++ [FetchPublicKey; FetchPublicKey]).
Proof.
  intros Husable Hfetch.
  rewrite (get_public_key_miss env st Husable), Hfetch. cbn [snd]. split; intros Hclock.
  - apply get_public_key_hit. unfold usable_key. cbn [public_key_cache].
    apply Z.ltb_lt in Hclock. rewrite Hclock. reflexivity.
  - rewrite get_public_key_miss.
    + destruct (fetched_key later); cbn [snd log_call network_log];
        rewrite <- app_assoc; reflexivity.
    + unfold usable_key. cbn [public_key_cache].
      apply Z.ltb_ge in Hclock. rewrite Hclock. reflexivity.
Qed.

(* ================================================================= *)
(** ** [get_token_info] *)

(** [get_token_info] returns what the decoding returns; of the exceptions of
    the decoding it replaces those of class [KeycloakError], and lets every
    other through as it is. *)
Lemma get_token_info_fst (env : Env) (st : State) (token : string) :
  fst (get_token_info env token st)
  = match fst (decode_with_public_key env token st) with
    | Returns token_info => Returns token_info
    | Raises e => if isinstance_KeycloakError e then Raises (invalid_token e) else Raises e
    end.
Proof.
  unfold get_token_info, try_except.
  destruct (decode_with_public_key env token st) as [[token_info | e] st'];
    cbn [fst handle]; [reflexivity |].
  destruct (isinstance_KeycloakError e); reflexivity.
Qed.

(** A failure to get the key reaches the caller of [get_token_info] as the
    key-unavailability error, and no claims are returned. *)
Lemma get_token_info_key_unavailable (env : Env) (st : State) (token : string) (e : exn) :
  fst (get_public_key env st) = Raises e ->
  fst (get_token_info env token st) = Raises e
  /\ exists cause, e = key_unavailable cause.
Proof.
  intros Hkey. rewrite get_token_info_fst, decode_with_public_key_fst, Hkey.
  destruct (get_public_key_raises env st e Hkey) as (_ & cause & _ & ->).
  split; [reflexivity | exists cause; reflexivity].
Qed.

(** A refusal of the library that is a [KeycloakError] becomes the adapter's
    invalid-token error. *)
Lemma get_token_info_keycloak_error
  (env : Env) (st : State) (token : string) (key : JWK) (e : exn) :
  fst (get_public_key env st) = Returns key ->
  openid_decode_token env token key = Raises e ->
  isinstance_KeycloakError e = true ->
  fst (get_token_info env token st) = Raises (invalid_token e).
Proof.
  intros Hkey Hdecode Hclass.
  rewrite get_token_info_fst, decode_with_public_key_fst, Hkey. cbn [obind].
  rewrite Hdecode, Hclass. reflexivity.
Qed.

(** A refusal of any other class leaves [get_token_info] as it is. *)
Lemma get_token_info_other_error
  (env : Env) (st : State) (token : string) (key : JWK) (e : exn) :
  fst (get_public_key env st) = Returns key ->
  openid_decode_token env token key = Raises e ->
  isinstance_KeycloakError e = false ->
  fst (get_token_info env token st) = Raises e.
Proof.
  intros Hkey Hdecode Hclass.
  rewrite get_token_info_fst, decode_with_public_key_fst, Hkey. cbn [obind].
  rewrite Hdecode, Hclass. reflexivity.
Qed.

(* ================================================================= *)
(** ** The scenarios of the spec *)

Example realm_roles_scenario :
  fst (has_role realm "alice.jwt" "admin" new_adapter) = Returns true
  /\ fst (has_role realm "alice.jwt" "superadmin" new_adapter) = Returns false.
Proof. split; reflexivity. Qed.

Example client_roles_scenario :
  fst (has_role realm "alice.jwt" "payer" new_adapter) = Returns true.
Proof. reflexivity. Qed.

Example permission_scenario :
  fst (check_permissions realm "alice.jwt" "invoices" "write" new_adapter) = Returns false
  /\ fst (check_permissions realm "alice.jwt" "invoices" "read" new_adapter) = Returns true.
Proof. split; reflexivity. Qed.

Example unreachable_scenario :
  fst (get_token_info unreachable_realm "alice.jwt" new_adapter)
  = Raises (PyExc ValueError "Failed to get public key: Connection refused")
  /\ fst (has_role unreachable_realm "alice.jwt" "admin" new_adapter) = Returns false.
Proof. split; reflexivity. Qed.

Example malformed_scenario :
  has_role_claims odd_claims "admin"
  = Raises (PyExc AttributeError "'list' object has no attribute 'get'")
  /\ fst (has_role realm "odd.jwt" "admin" new_adapter) = Returns false
  /\ read_permissions (PList [PInt 42]) "invoices" "read"
     = Raises (PyExc AttributeError "'int' object has no attribute 'get'")
  /\ fst (check_permissions (realm_answering (Returns (PList [PInt 42]))) "alice.jwt"
            "invoices" "read" new_adapter) = Returns false
  /\ fst (check_permissions (realm_answering (Raises (PyExc KeycloakError "403: Forbidden")))
            "alice.jwt" "invoices" "read" new_adapter) = Returns false.
Proof. repeat split. Qed.

Example no_names_scenario :
  fst (has_any_role realm "alice.jwt" [] new_adapter) = Returns false
  /\ fst (has_any_role realm "alice.jwt" ["auditor"; "payer"] new_adapter) = Returns true.
Proof. split; reflexivity. Qed.

Example warm_adapter_scenario :
  get_public_key realm new_adapter = (Returns (JWKey (pem_of realm_key)), warm_adapter)
  /\ get_public_key unreachable_realm warm_adapter
     = (Returns (JWKey (pem_of realm_key)), warm_adapter).
Proof. split; reflexivity. Qed.

(* ================================================================= *)
(** ** Instances of the conditional theorems *)

(** The premises of the membership theorem hold for alice's token on a new
    adapter, and so does its conclusion. *)
Lemma has_role_iff_member_alice :
  (fst (get_public_key realm new_adapter) = Returns (JWKey (pem_of realm_key))
   /\ openid_decode_token realm "alice.jwt" (JWKey (pem_of realm_key)) = Returns alice_claims
   /\ decoded_claims alice_claims
      = Some (mkClaims ["admin"; "user"] [("billing-service", ["payer"])]))
  /\ exists b,
      fst (has_role realm "alice.jwt" "payer" new_adapter) = Returns b
      /\ (b = true <->
          holds_role (mkClaims ["admin"; "user"] [("billing-service", ["payer"])]) "payer").
Proof.
  split; [repeat split |].
  apply (has_role_iff_member realm new_adapter "alice.jwt" "payer"
           (JWKey (pem_of realm_key)) alice_claims);
    reflexivity.
Defined.


(* ================================================================= *)
(** ** What decides the predicates *)

(** C8, as stated, fails for [check_permissions]: it is not decided by the
    claims.  With the same token, the same decoded claims, the same
    arguments and a key already held, it returns [True] in a realm that
    grants the permission and [False] in one that does not (and it makes a
    network call each time). *)
Lemma check_permissions_not_decided_by_claims :
  ~ decided_by_claims (fun env token => check_permissions env token "invoices" "read").
Proof.
  intros Hdecided.
  destruct (Hdecided realm (realm_answering (Returns (PList []))) warm_adapter warm_adapter
              "alice.jwt" "alice.jwt" alice_claims eq_refl eq_refl) as [Hsame _].
  discriminate Hsame.
Qed.

(** C8, amended.  Once a token is decoded, [has_role] and [has_any_role]
    are decided by the decoded claims and their argument: two runs that
    decode the same claims return the same boolean, in whatever realm and
    state, and a run makes no network call after the decoding (its only
    network activity is that of [get_public_key]).  [check_permissions]
    does not look at the claims: each call makes one request to the
    permission endpoint, and two runs return the same boolean when the
    endpoint gives them the same answer. *)
Theorem role_predicates_decided_by_claims
  (role_name : string) (role_names : list string) (resource scope : string) :
  decided_by_claims (fun env token => has_role env token role_name)
  /\ decided_by_claims (fun env token => has_any_role env token role_names)
  /\ decided_by_answer resource scope
       (fun env token => check_permissions env token resource scope).
Proof.
  split; [| split].
  - intros env1 env2 st1 st2 token1 token2 token_info Hclaims1 Hclaims2. split.
    + rewrite !has_role_fst, Hclaims1, Hclaims2. reflexivity.
    + rewrite has_role_snd, decode_with_public_key_snd. reflexivity.
  - intros env1 env2 st1 st2 token1 token2 token_info Hclaims1 Hclaims2. split.
    + rewrite !has_any_role_fst, Hclaims1, Hclaims2. reflexivity.
    + rewrite has_any_role_snd, decode_with_public_key_snd. reflexivity.
  - intros env1 env2 st1 st2 token1 token2. split.
    + intros Hanswer. rewrite !check_permissions_fst, Hanswer. reflexivity.
    + rewrite check_permissions_snd. reflexivity.
Qed.

(** Alice's token decodes to the same claims on a new adapter in the
    reachable realm and on a warm adapter in the unreachable one (which
    serves the held key), so [has_role] agrees across the two, and on the
    new adapter its only network call is the fetch of the key. *)
Lemma role_predicates_decided_by_claims_alice :
  (fst (decode_with_public_key realm "alice.jwt" new_adapter) = Returns alice_claims
   /\ fst (decode_with_public_key unreachable_realm "alice.jwt" warm_adapter)
      = Returns alice_claims)
  /\ fst (has_role realm "alice.jwt" "admin" new_adapter)
     = fst (has_role unreachable_realm "alice.jwt" "admin" warm_adapter)
  /\ network_log (snd (has_role realm "alice.jwt" "admin" new_adapter))
     = network_log (snd (decode_with_public_key realm "alice.jwt" new_adapter)).
Proof.
  split; [split; reflexivity |].
  apply (proj1 (role_predicates_decided_by_claims "admin" ["payer"] "invoices" "read")
           realm unreachable_realm new_adapter warm_adapter "alice.jwt" "alice.jwt"
           alice_claims);
    reflexivity.
Defined.

(* ================================================================= *)
(** ** The error of [get_token_info] on a refused token *)

(** C5.  On an expired token the library raises jwcrypto's [JWTExpired],
    which is no [KeycloakError]: [get_token_info] lets it through unchanged,
    and its caller gets neither the adapter's invalid-token error nor any
    [ValueError], while [validate_token] on the same token answers [False]. *)
Theorem get_token_info_expired_token :
  fst (get_token_info realm "expired.jwt" new_adapter)
  = Raises (PyExc (LibraryError "JWTExpired") "Expired at 900, time: 1000")
  /\ fst (get_token_info realm "expired.jwt" new_adapter)
     <> Raises (invalid_token (PyExc (LibraryError "JWTExpired") "Expired at 900, time: 1000"))
  /\ fst (validate_token realm "expired.jwt" new_adapter) = Returns false.
Proof.
  split; [reflexivity | split; [| reflexivity]].
  intros Heq. discriminate Heq.
Qed.

(* ================================================================= *)
(** ** [has_any_role] as a disjunction of [has_role] *)

Lemma existsb_none {A : Type} (f : A -> bool) (l : list A) :
  (forall a, f a = false) -> existsb f l = false.
Proof.
  intros Hnone. induction l as [| a rest IH]; [reflexivity |].
  cbn. rewrite Hnone, IH. reflexivity.
Qed.

Lemma existsb_pointwise {A : Type} (f g : A -> bool) (l : list A) :
  (forall a, f a = g a) -> existsb f l = existsb g l.
Proof.
  intros Hsame. induction l as [| a rest IH]; [reflexivity |].
  cbn. rewrite Hsame, IH. reflexivity.
Qed.

Lemma existsb_either {A : Type} (f g : A -> bool) (l : list A) :
  existsb (fun a => f a || g a) l = existsb f l || existsb g l.
Proof.
  induction l as [| a rest IH]; [reflexivity |].
  cbn. rewrite IH. destruct (f a), (g a), (existsb f rest); reflexivity.
Qed.

(** Whether [in] raises depends on the container alone. *)
Lemma py_in_cases (container : pyval) :
  (exists f, forall s, py_in s container = Returns (f s))
  \/ (exists e, forall s, py_in s container = Raises e).
Proof.
  destruct container; cbn;
    try (right; eexists; intros s; reflexivity);
    left; eexists; intros s0; reflexivity.
Qed.

Lemma any_role_in_returns (f : string -> bool) (roles : pyval) (role_names : list string) :
  (forall s, py_in s roles = Returns (f s)) ->
  any_role_in role_names roles = Returns (existsb f role_names).
Proof.
  intros Hin. induction role_names as [| role rest IH]; [reflexivity |].
  cbn [any_role_in existsb]. rewrite Hin. cbn [obind].
  destruct (f role); [reflexivity | exact IH].
Qed.

Lemma any_role_in_raises (e : exn) (roles : pyval) (role : string) (rest : list string) :
  (forall s, py_in s roles = Raises e) -> any_role_in (role :: rest) roles = Raises e.
Proof. intros Hin. cbn [any_role_in]. rewrite Hin. reflexivity. Qed.

Lemma has_any_role_clients_existsb (role : string) (rest : list string) (clients : list pyval) :
  denied_on_error (has_any_role_clients (role :: rest) clients)
  = existsb (fun r => denied_on_error (has_role_clients r clients)) (role :: rest).
Proof.
  induction clients as [| client more IH].
  - symmetry. apply existsb_none. reflexivity.
  - cbn [has_any_role_clients has_role_clients].
    destruct (py_get client "roles" (PList [])) as [client_roles | e]; cbn [obind].
    + destruct (py_in_cases client_roles) as [(f & Hin) | (e & Hin)].
      * rewrite (any_role_in_returns f client_roles (role :: rest) Hin). cbn [obind].
        transitivity (existsb (fun r => f r || denied_on_error (has_role_clients r more))
                        (role :: rest)).
        -- rewrite existsb_either, <- IH.
           destruct (existsb f (role :: rest)); reflexivity.
        -- apply existsb_pointwise. intros r. rewrite Hin. cbn [obind].
           destruct (f r); reflexivity.
      * rewrite (any_role_in_raises e client_roles role rest Hin).
        symmetry. apply existsb_none. intros r. rewrite Hin. reflexivity.
    + symmetry. apply existsb_none. reflexivity.
Qed.

Lemma has_any_role_claims_existsb (token_info : pyval) (role_names : list string) :
  denied_on_error (has_any_role_claims token_info role_names)
  = existsb (fun r => denied_on_error (has_role_claims token_info r)) role_names.
Proof.
  destruct role_names as [| role rest]; [apply has_any_role_claims_nil |].
  unfold has_any_role_claims, has_role_claims.
  destruct (py_get token_info "realm_access" (PDict [])) as [realm_access | e];
    cbn [obind]; [| symmetry; apply existsb_none; reflexivity].
  destruct (py_get realm_access "roles" (PList [])) as [roles | e];
    cbn [obind]; [| symmetry; apply existsb_none; reflexivity].
  destruct (py_in_cases roles) as [(f & Hin) | (e & Hin)].
  - rewrite (any_role_in_returns f roles (role :: rest) Hin). cbn [obind].
    destruct (py_get token_info "resource_access" (PDict [])) as [resource_access | e];
      cbn [obind].
    + destruct (py_values resource_access) as [clients | e]; cbn [obind].
      * transitivity (existsb (fun r => f r || denied_on_error (has_role_clients r clients))
                        (role :: rest)).
        -- rewrite existsb_either, <- has_any_role_clients_existsb.
           destruct (existsb f (role :: rest)); reflexivity.
        -- apply existsb_pointwise. intros r. rewrite Hin. cbn [obind].
           destruct (f r); reflexivity.
      * transitivity (existsb (fun r => f r || false) (role :: rest)).
        -- rewrite existsb_either, (existsb_none (fun _ => false)) by reflexivity.
           destruct (existsb f (role :: rest)); reflexivity.
        -- apply existsb_pointwise. intros r. rewrite Hin. cbn [obind].
           destruct (f r); reflexivity.
    + transitivity (existsb (fun r => f r || false) (role :: rest)).
      * rewrite existsb_either, (existsb_none (fun _ => false)) by reflexivity.
        destruct (existsb f (role :: rest)); reflexivity.
      * apply existsb_pointwise. intros r. rewrite Hin. cbn [obind].
           destruct (f r); reflexivity.
  - rewrite (any_role_in_raises e roles role rest Hin).
    symmetry. apply existsb_none. intros r. rewrite Hin. reflexivity.
Qed.

(** [has_any_role] is the disjunction of [has_role]: for every token,
    decodable or not and whatever its claims look like, [has_any_role]
    answers [True] for a list of names exactly when [has_role] answers
    [True] for one of the names. *)
Theorem has_any_role_iff_some_has_role
  (env : Env) (st : State) (token : string) (role_names : list string) :
  fst (has_any_role env token role_names st) = Returns true
  <-> exists role, In role role_names /\ fst (has_role env token role st) = Returns true.
Proof.
  rewrite has_any_role_fst.
  destruct (fst (decode_with_public_key env token st)) as [token_info | e] eqn:Hdecode;
    cbn [obind].
  - rewrite has_any_role_claims_existsb. split.
    + intros [= Hsome]. apply existsb_exists in Hsome as (role & Hin & Hrole).
      exists role. split; [exact Hin |].
      rewrite has_role_fst, Hdecode. cbn [obind]. rewrite Hrole. reflexivity.
    + intros (role & Hin & Hrole). rewrite has_role_fst, Hdecode in Hrole.
      cbn [obind] in Hrole. injection Hrole as Hrole. f_equal.
      apply existsb_exists. exists role. split; assumption.
  - split; [discriminate |].
    intros (role & _ & Hrole). rewrite has_role_fst, Hdecode in Hrole. discriminate.
Qed.

(* ================================================================= *)
(** ** What a granted permission rests on *)

Lemma permission_granted_sound (resource scope : string) (perms : list pyval) :
  permission_granted resource scope perms = Returns true ->
  exists items scopes,
    In (PDict items) perms
    /\ dict_lookup items "rsname" = Some (PStr resource)
    /\ py_get (PDict items) "scopes" (PList []) = Returns scopes
    /\ py_in scope scopes = Returns true.
Proof.
  induction perms as [| perm rest IH]; [discriminate |].
  cbn [permission_granted].
  assert (Hrest : permission_granted resource scope rest = Returns true ->
                  exists items scopes,
                    In (PDict items) (perm :: rest)
                    /\ dict_lookup items "rsname" = Some (PStr resource)
                    /\ py_get (PDict items) "scopes" (PList []) = Returns scopes
                    /\ py_in scope scopes = Returns true).
  { intros Hgranted. destruct (IH Hgranted) as (items & scopes & Hin & Hfacts).
    exists items, scopes. split; [right; exact Hin | exact Hfacts]. }
  destruct perm as [| | | | | | items]; try discriminate.
  intros Hgranted. cbn [py_get obind] in Hgranted.
  destruct (dict_lookup items "rsname") as [rsname |] eqn:Hname; [| exact (Hrest Hgranted)].
  destruct (py_eq_str rsname resource) eqn:Heq; [| exact (Hrest Hgranted)].
  apply py_eq_str_true in Heq. subst rsname.
  remember (match dict_lookup items "scopes" with
            | Some v => v
            | None => PList []
            end) as scopes eqn:Hscopes.
  destruct (py_in scope scopes) as [[|] | e] eqn:Hin; cbn [obind] in Hgranted;
    [| exact (Hrest Hgranted) | discriminate].
  exists items, scopes. split; [left; reflexivity |]. split; [exact Hname |].
  split; [cbn [py_get]; rewrite Hscopes; reflexivity | exact Hin].
Qed.

(** A granted permission rests on an entry.  Whatever the endpoint
    answers, well formed or not, [check_permissions] returns [True] only if
    the answer is a list with a JSON object whose ["rsname"] is exactly
    [resource] and whose ["scopes"] (empty when absent) contain [scope] in
    the sense of Python's [in]. *)
Theorem check_permissions_grant_names_resource
  (env : Env) (st : State) (token resource scope : string) :
  fst (check_permissions env token resource scope st) = Returns true ->
  exists perms items scopes,
    openid_uma_permissions env token [(resource ++ "#" ++ scope)%string]
    = Returns (PList perms)
    /\ In (PDict items) perms
    /\ dict_lookup items "rsname" = Some (PStr resource)
    /\ py_get (PDict items) "scopes" (PList []) = Returns scopes
    /\ py_in scope scopes = Returns true.
Proof.
  rewrite check_permissions_fst.
  change (requirement resource scope) with (resource ++ "#" ++ scope)%string.
  destruct (openid_uma_permissions env token [(resource ++ "#" ++ scope)%string])
    as [answer | e]; cbn [obind]; [| discriminate].
  unfold read_permissions.
  destruct answer as [| | | | | perms |];
    try (rewrite orb_true_r; discriminate).
  destruct perms as [| perm rest]; [discriminate |].
  cbn [py_truthy isinstance_list negb orb list_elems].
  intros Hgranted.
  destruct (permission_granted resource scope (perm :: rest)) as [[|] | e] eqn:Hloop;
    try discriminate.
  destruct (permission_granted_sound resource scope (perm :: rest) Hloop)
    as (items & scopes & Hfacts).
  exists (perm :: rest), items, scopes. split; [reflexivity | exact Hfacts].
Qed.

(* ================================================================= *)
(** ** The claims [get_token_info] returns *)

(** [get_token_info] returns claims exactly when [get_public_key] gives a
    key and the library decodes the token with it, and the claims it returns
    are the library's, unchanged. *)
Theorem get_token_info_returns_decoded
  (env : Env) (st : State) (token : string) (token_info : pyval) :
  fst (get_token_info env token st) = Returns token_info
  <-> exists key,
        fst (get_public_key env st) = Returns key
        /\ openid_decode_token env token key = Returns token_info.
Proof.
  rewrite get_token_info_fst, decode_with_public_key_fst.
  destruct (fst (get_public_key env st)) as [key | e]; cbn [obind].
  - destruct (openid_decode_token env token key) as [decoded | e] eqn:Hdecode.
    + split.
      * intros [= ->]. exists key. split; [reflexivity | exact Hdecode].
      * intros (key' & [= <-] & Hsame). congruence.
    + split.
      * destruct (isinstance_KeycloakError e); discriminate.
      * intros (key' & [= <-] & Hsame). congruence.
  - split.
    + destruct (isinstance_KeycloakError e); discriminate.
    + intros (key & [=] & _).
Qed.

(* ================================================================= *)
(** ** [get_userinfo] *)

Lemma validate_token_fst (env : Env) (token : string) (st : State) :
  fst (validate_token env token st)
  = Returns (match fst (decode_with_public_key env token st) with
             | Returns _ => true
             | Raises _ => false
             end).
Proof.
  unfold validate_token. rewrite try_except_Exception_false.
  unfold validate_token_try, bind, ret.
  destruct (decode_with_public_key env token st) as [[token_info | e] st']; reflexivity.
Qed.

(** [get_userinfo] serves valid tokens only, whatever its cache holds: if
    it returns user information then [get_public_key] gave a key and the
    library decoded the token with it; and when the decoding fails it raises
    the [ValueError] "Invalid token provided" right after the validation,
    without running [_get_userinfo_cached]. *)
Theorem get_userinfo_needs_valid_token
  (env : Env) (openid_userinfo : string -> outcome pyval)
  (userinfo_cache : (string -> M pyval) -> string -> M pyval)
  (token : string) (st : State) :
  (forall info,
     fst (get_userinfo env openid_userinfo userinfo_cache token st) = Returns info ->
     exists key token_info,
       fst (get_public_key env st) = Returns key
       /\ openid_decode_token env token key = Returns token_info)
  /\ (forall e,
        fst (decode_with_public_key env token st) = Raises e ->
        get_userinfo env openid_userinfo userinfo_cache token st
        = (Raises (PyExc ValueError "Invalid token provided"),
           snd (validate_token env token st))).
Proof.
  pose proof (validate_token_fst env token st) as Hvalid.
  unfold get_userinfo, bind.
  destruct (validate_token env token st) as [[valid | e0] st1]; cbn [fst snd] in *;
    [| discriminate].
  injection Hvalid as ->. rewrite decode_with_public_key_fst. split.
  - intros info.
    destruct (fst (get_public_key env st)) as [key | e]; cbn [obind negb]; [| discriminate].
    destruct (openid_decode_token env token key) as [token_info | e] eqn:Hdecode;
      cbn [negb]; [| discriminate].
    intros _. exists key, token_info. split; [reflexivity | exact Hdecode].
  - intros e He. rewrite He. reflexivity.
Qed.

(* ================================================================= *)
(** ** The admin client: lazy refresh *)

Lemma st_bind_returns {S A B : Type} (m : ST S A) (k : A -> ST S B) (s s' : S) (b : B) :
  (x <~~ m ;; k x) s = (Returns b, s') ->
  exists a s1, m s = (Returns a, s1) /\ k a s1 = (Returns b, s').
Proof.
  unfold st_bind. destruct (m s) as [[a | e] s1]; [| discriminate].
  intros Hk. exists a, s1. split; [reflexivity | exact Hk].
Qed.

(** What [_initialize_admin_client] leaves when the token request fails with
    a [KeycloakError]. *)
Lemma initialize_token_refused (w : World) (s : Self) (e : exn) :
  openid_token w (token_requests s) = Raises e ->
  isinstance_KeycloakError e = true ->
  _initialize_admin_client w s
  = (Returns tt,
     mkSelf None 0%float (clock_reads s) (S (token_requests s)) (admin_log s ++ [TokenRequest])).
Proof.
  intros Htoken Hclass.
  unfold _initialize_admin_client, st_try_except, st_bind, call_token.
  rewrite Htoken. cbn [st_handle]. rewrite Hclass. reflexivity.
Qed.

(** What it leaves when the request fails with anything else. *)
Lemma initialize_token_error (w : World) (s : Self) (e : exn) :
  openid_token w (token_requests s) = Raises e ->
  isinstance_KeycloakError e = false ->
  _initialize_admin_client w s
  = (Raises e,
     mkSelf (_admin_adapter s) (_admin_token_expiry s) (clock_reads s)
       (S (token_requests s)) (admin_log s ++ [TokenRequest])).
Proof.
  intros Htoken Hclass.
  unfold _initialize_admin_client, st_try_except, st_bind, call_token.
  rewrite Htoken. cbn [st_handle]. rewrite Hclass. reflexivity.
Qed.

(** What it leaves when everything succeeds. *)
Lemma initialize_success
  (w : World) (s : Self) (token expires_in : pyval) (lifetime : float)
  (admin : KeycloakAdmin) :
  openid_token w (token_requests s) = Returns token ->
  py_get token "expires_in" (PInt 60) = Returns expires_in ->
  py_to_float (json_float w) expires_in = Returns lifetime ->
  new_KeycloakAdmin w token = Returns admin ->
  _initialize_admin_client w s
  = (Returns tt,
     mkSelf (Some admin) (time_time w (clock_reads s) + lifetime - 30)%float
       (S (clock_reads s)) (S (token_requests s)) (admin_log s ++ [TokenRequest])).
Proof.
  intros Htoken Hget Hnumber Hadmin.
  unfold _initialize_admin_client, st_try_except, st_bind, call_token, read_clock, st_lift,
    set_admin_token_expiry, set_admin_adapter, py_float_add.
  rewrite Htoken. cbn [fst snd clock_reads token_requests admin_log _admin_adapter
                       _admin_token_expiry].
  rewrite Hget, Hnumber, Hadmin. reflexivity.
Qed.

(** One request for a token at most, whatever happens. *)
Lemma initialize_requests (w : World) (s : Self) :
  token_requests (snd (_initialize_admin_client w s)) = S (token_requests s).
Proof.
  unfold _initialize_admin_client, st_try_except, st_bind, call_token, read_clock, st_lift,
    set_admin_token_expiry, set_admin_adapter.
  destruct (openid_token w (token_requests s)) as [token | e]; cbn [st_handle].
  - destruct (py_get token "expires_in" (PInt 60)) as [expires_in | e]; cbn [st_handle].
    + destruct (py_float_add _ _ expires_in) as [sum | e]; cbn [st_handle].
      * destruct (new_KeycloakAdmin w token) as [admin | e]; cbn [st_handle];
          [reflexivity |].
        destruct (isinstance_KeycloakError e); reflexivity.
      * destruct (isinstance_KeycloakError e); reflexivity.
    + destruct (isinstance_KeycloakError e); reflexivity.
  - destruct (isinstance_KeycloakError e); reflexivity.
Qed.

Lemma needs_refresh_run (w : World) (s : Self) :
  config_unset (CLIENT_SECRET_KEY w) = false ->
  fst (needs_refresh w s) = Returns (refresh_due w s)
  /\ token_requests (snd (needs_refresh w s)) = token_requests s
  /\ _admin_adapter (snd (needs_refresh w s)) = _admin_adapter s
  /\ _admin_token_expiry (snd (needs_refresh w s)) = _admin_token_expiry s
  /\ admin_log (snd (needs_refresh w s)) = admin_log s.
Proof.
  intros Hset. unfold needs_refresh, refresh_due. rewrite Hset.
  destruct (_admin_adapter s) as [admin |] eqn:Hheld; cbn; [| repeat split; exact Hheld].
  repeat split. exact Hheld.
Qed.

(** Every access asks for one token when a refresh is due, and for none
    otherwise. *)
Lemma admin_adapter_token_count (w : World) (s : Self) :
  token_requests (snd (admin_adapter w s))
  = (token_requests s + (if refresh_due w s then 1 else 0))%nat.
Proof.
  unfold admin_adapter.
  destruct (config_unset (CLIENT_SECRET_KEY w)) eqn:Hset.
  - unfold refresh_due. rewrite Hset. cbn. lia.
  - destruct (needs_refresh_run w s Hset) as (Hdue & Hreq & _).
    unfold st_bind.
    destruct (needs_refresh w s) as [[due | e] s1]; cbn [fst snd] in *; [| discriminate].
    injection Hdue as ->.
    destruct (refresh_due w s).
    + pose proof (initialize_requests w s1) as Hone.
      destruct (_initialize_admin_client w s1) as [[[] | e] s2]; cbn [fst snd] in *.
      * destruct (_admin_adapter s2); cbn [snd]; lia.
      * lia.
    + cbn [st_ret]. destruct (_admin_adapter s1); cbn [snd]; lia.
Qed.

(** [admin_adapter] refreshes lazily.  An access requests a token exactly
    when a refresh is due (a secret is configured, and no client is held or
    the clock has reached the recorded expiry), and then only one.  When no
    refresh is due the held client, its expiry and the log of requests are
    left as they are, and with a configured secret the held client is what
    the access returns. *)
Theorem admin_adapter_refresh_policy (w : World) (s : Self) :
  token_requests (snd (admin_adapter w s))
  = (token_requests s + (if refresh_due w s then 1 else 0))%nat
  /\ (refresh_due w s = false ->
      _admin_adapter (snd (admin_adapter w s)) = _admin_adapter s
      /\ _admin_token_expiry (snd (admin_adapter w s)) = _admin_token_expiry s
      /\ admin_log (snd (admin_adapter w s)) = admin_log s
      /\ (config_unset (CLIENT_SECRET_KEY w) = false ->
          exists admin, _admin_adapter s = Some admin
                        /\ fst (admin_adapter w s) = Returns admin)).
Proof.
  split; [apply admin_adapter_token_count |].
  intros Hdue. unfold admin_adapter.
  destruct (config_unset (CLIENT_SECRET_KEY w)) eqn:Hset.
  - cbn. repeat split. discriminate.
  - destruct (needs_refresh_run w s Hset) as (Hcheck & _ & Hheld & Hexp & Hlog).
    unfold st_bind.
    destruct (needs_refresh w s) as [[due | e] s1]; cbn [fst snd] in *; [| discriminate].
    injection Hcheck as ->. rewrite Hdue. cbn [st_ret].
    assert (Hsome : exists admin, _admin_adapter s = Some admin).
    { unfold refresh_due in Hdue. rewrite Hset in Hdue. cbn in Hdue.
      destruct (_admin_adapter s) as [admin |]; [eauto | discriminate]. }
    destruct Hsome as (admin & Hadmin). rewrite Hadmin in Hheld. rewrite Hheld.
    cbn [fst snd]. rewrite Hadmin. repeat split; try assumption.
    intros _. exists admin. split; reflexivity.
Qed.

(** The access up to the refresh, when one is due: the check may have read
    the clock, and has changed nothing else. *)
Lemma needs_refresh_due (w : World) (s : Self) :
  refresh_due w s = true ->
  exists s1,
    needs_refresh w s = (Returns true, s1)
    /\ token_requests s1 = token_requests s
    /\ _admin_adapter s1 = _admin_adapter s
    /\ _admin_token_expiry s1 = _admin_token_expiry s
    /\ admin_log s1 = admin_log s.
Proof.
  unfold refresh_due, needs_refresh. intros Hdue.
  apply andb_true_iff in Hdue as [_ Hdue].
  destruct (_admin_adapter s) as [admin |] eqn:Hheld.
  - eexists. cbn. rewrite Hdue. repeat split. exact Hheld.
  - eexists. repeat split. exact Hheld.
Qed.

Lemma refresh_due_configured (w : World) (s : Self) :
  refresh_due w s = true -> config_unset (CLIENT_SECRET_KEY w) = false.
Proof.
  unfold refresh_due. intros Hdue. apply andb_true_iff in Hdue as [Hset _].
  apply negb_true_iff in Hset. exact Hset.
Qed.

(** A refused refresh.  When a refresh is due and the token request fails
    with a [KeycloakError], the access raises the [ValueError] "Failed to
    initialize admin client", the adapter holds no client and the expiry 0,
    whatever it held before, and the next access finds a refresh due
    again. *)
Theorem admin_adapter_refused (w : World) (s : Self) (e : exn) :
  refresh_due w s = true ->
  openid_token w (token_requests s) = Raises e ->
  isinstance_KeycloakError e = true ->
  fst (admin_adapter w s) = Raises (PyExc ValueError "Failed to initialize admin client")
  /\ _admin_adapter (snd (admin_adapter w s)) = None
  /\ _admin_token_expiry (snd (admin_adapter w s)) = 0%float
  /\ admin_log (snd (admin_adapter w s)) = admin_log s ++ [TokenRequest]
  /\ refresh_due w (snd (admin_adapter w s)) = true.
Proof.
  intros Hdue Htoken Hclass.
  pose proof (refresh_due_configured w s Hdue) as Hset.
  destruct (needs_refresh_due w s Hdue) as (s1 & Hcheck & Hreq & _ & _ & Hlog).
  unfold admin_adapter, st_bind. rewrite Hset, Hcheck.
  rewrite <- Hreq in Htoken.
  rewrite (initialize_token_refused w s1 e Htoken Hclass). cbn.
  rewrite Hlog. repeat split.
  unfold refresh_due. rewrite Hset. reflexivity.
Qed.

(** A successful refresh.  The access returns the client built from the
    new token and holds it, with the expiry [t + expires_in - 30] computed
    in binary64, where [t] is the last reading of the clock and
    [expires_in] the number under that key of the token answer (60 when the
    key is absent) as [float + int] converts it. *)
Theorem admin_adapter_new_client
  (w : World) (s : Self) (token expires_in : pyval) (lifetime : float)
  (admin : KeycloakAdmin) :
  refresh_due w s = true ->
  openid_token w (token_requests s) = Returns token ->
  py_get token "expires_in" (PInt 60) = Returns expires_in ->
  py_to_float (json_float w) expires_in = Returns lifetime ->
  new_KeycloakAdmin w token = Returns admin ->
  fst (admin_adapter w s) = Returns admin
  /\ _admin_adapter (snd (admin_adapter w s)) = Some admin
  /\ _admin_token_expiry (snd (admin_adapter w s))
     = (time_time w (pred (clock_reads (snd (admin_adapter w s)))) + lifetime - 30)%float
  /\ admin_log (snd (admin_adapter w s)) = admin_log s ++ [TokenRequest].
Proof.
  intros Hdue Htoken Hget Hnumber Hadmin.
  pose proof (refresh_due_configured w s Hdue) as Hset.
  destruct (needs_refresh_due w s Hdue) as (s1 & Hcheck & Hreq & _ & _ & Hlog).
  unfold admin_adapter, st_bind. rewrite Hset, Hcheck.
  rewrite <- Hreq in Htoken.
  rewrite (initialize_success w s1 token expires_in lifetime admin Htoken Hget Hnumber Hadmin).
  cbn. rewrite Hlog. repeat split.
Qed.

(** An error of the token request that is no [KeycloakError] (a connection
    error, ...) leaves [admin_adapter] as it is, not as a [ValueError], and
    the client and expiry held before stay in place. *)
Theorem admin_adapter_other_error (w : World) (s : Self) (e : exn) :
  refresh_due w s = true ->
  openid_token w (token_requests s) = Raises e ->
  isinstance_KeycloakError e = false ->
  fst (admin_adapter w s) = Raises e
  /\ _admin_adapter (snd (admin_adapter w s)) = _admin_adapter s
  /\ _admin_token_expiry (snd (admin_adapter w s)) = _admin_token_expiry s.
Proof.
  intros Hdue Htoken Hclass.
  pose proof (refresh_due_configured w s Hdue) as Hset.
  destruct (needs_refresh_due w s Hdue) as (s1 & Hcheck & Hreq & Hheld & Hexp & _).
  unfold admin_adapter, st_bind. rewrite Hset, Hcheck.
  rewrite <- Hreq in Htoken.
  rewrite (initialize_token_error w s1 e Htoken Hclass). cbn.
  repeat split; assumption.
Qed.

(** The admin part of [__init__] does not fail on a refusal.  Without a
    secret it makes no request; with one, a token request that fails with a
    [KeycloakError] still lets the construction return, the adapter holds no
    client, and the first access to [admin_adapter] will try again. *)
Theorem init_admin_survives_refusal (w : World) (s : Self) :
  (config_unset (CLIENT_SECRET_KEY w) = true ->
   init_admin w s
   = (Returns tt, mkSelf None 0%float (clock_reads s) (token_requests s) (admin_log s)))
  /\ (forall e,
        config_unset (CLIENT_SECRET_KEY w) = false ->
        openid_token w (token_requests s) = Raises e ->
        isinstance_KeycloakError e = true ->
        init_admin w s
        = (Returns tt,
           mkSelf None 0%float (clock_reads s) (S (token_requests s))
             (admin_log s ++ [TokenRequest]))
        /\ refresh_due w (snd (init_admin w s)) = true).
Proof.
  split.
  - intros Hunset. unfold init_admin, st_bind. cbn. rewrite Hunset. reflexivity.
  - intros e Hset Htoken Hclass.
    assert (Hrun : init_admin w s
                   = (Returns tt,
                      mkSelf None 0%float (clock_reads s) (S (token_requests s))
                        (admin_log s ++ [TokenRequest]))).
    { unfold init_admin, st_bind. cbn. rewrite Hset.
      apply (initialize_token_refused w (mkSelf None 0%float _ _ _) e); assumption. }
    split; [exact Hrun |]. rewrite Hrun. unfold refresh_due. rewrite Hset. reflexivity.
Qed.

(* ================================================================= *)
(** ** [search_users] *)

Lemma st_try_except_returns {S A : Type} (body : ST S A) (wrap : exn -> exn)
  (s s' : S) (a : A) :
  st_try_except body [(isinstance_KeycloakError, fun e => st_raise (wrap e))] s
  = (Returns a, s') ->
  body s = (Returns a, s').
Proof.
  unfold st_try_except. destruct (body s) as [[a0 | e] s0]; [trivial |].
  cbn [st_handle]. destruct (isinstance_KeycloakError e); discriminate.
Qed.

Lemma py_slice_to_firstn (l : list pyval) (n : Z) :
  exists k, py_slice_to l n = firstn k l /\ (0 <= n -> k = Z.to_nat n).
Proof.
  unfold py_slice_to. destruct (0 <=? n) eqn:Hsign.
  - exists (Z.to_nat n). split; [reflexivity | trivial].
  - exists (List.length l - Z.to_nat (- n))%nat. split; [reflexivity |].
    intros Hpos. apply Z.leb_gt in Hsign. lia.
Qed.

(** What a run of [search_users] that returns went through. *)
Lemma search_users_returns (w : World) (query : string) (max_results : Z)
  (s s' : Self) (users : list pyval) :
  search_users w query max_results s = (Returns users, s') ->
  exists admin s1 answer found s2 by_email s3 by_first s4 by_last,
    admin_adapter w s = (Returns admin, s1)
    /\ admin_get_users w admin (users_query "username" query max_results) = Returns answer
    /\ py_iter answer = Returns found
    /\ search_more w "email" query max_results found s2 = (Returns by_email, s3)
    /\ search_more w "firstName" query max_results by_email s3 = (Returns by_first, s4)
    /\ search_more w "lastName" query max_results by_first s4 = (Returns by_last, s')
    /\ users = py_slice_to by_last max_results.
Proof.
  unfold search_users. intros Hrun. apply st_try_except_returns in Hrun.
  apply st_bind_returns in Hrun as (admin & s1 & Hadmin & Hrun).
  apply st_bind_returns in Hrun as (answer & s2 & Hanswer & Hrun).
  apply st_bind_returns in Hrun as (found & s2' & Hfound & Hrun).
  apply st_bind_returns in Hrun as (by_email & s3 & Hemail & Hrun).
  apply st_bind_returns in Hrun as (by_first & s4 & Hfirst & Hrun).
  apply st_bind_returns in Hrun as (by_last & s5 & Hlast & Hrun).
  unfold call_get_users in Hanswer. injection Hanswer as Hanswer <-.
  unfold st_lift in Hfound. injection Hfound as Hfound <-.
  unfold st_ret in Hrun. injection Hrun as <- <-.
  exists admin, s1, answer, found. eexists. exists by_email, s3, by_first, s4, by_last.
  repeat split; eassumption.
Qed.

(** [search_users] returns at most [max_results] users, for every
    [max_results] that is not negative, whatever the four searches answer. *)
Theorem search_users_at_most_max (w : World) (query : string) (max_results : Z)
  (s s' : Self) (users : list pyval) :
  search_users w query max_results s = (Returns users, s') ->
  0 <= max_results ->
  Z.of_nat (List.length users) <= max_results.
Proof.
  intros Hrun Hmax.
  apply search_users_returns in Hrun
    as (_ & _ & _ & _ & _ & _ & _ & _ & _ & by_last & _ & _ & _ & _ & _ & _ & ->).
  destruct (py_slice_to_firstn by_last max_results) as (k & -> & Hk).
  rewrite (Hk Hmax). pose proof (firstn_le_length (Z.to_nat max_results) by_last). lia.
Qed.

Lemma search_more_full (w : World) (field query : string) (max_results : Z)
  (users : list pyval) (s : Self) :
  max_results <= Z.of_nat (List.length users) ->
  search_more w field query max_results users s = (Returns users, s).
Proof.
  intros Hfull. unfold search_more.
  destruct (Z.of_nat (List.length users) <? max_results) eqn:Hless; [| reflexivity].
  apply Z.ltb_lt in Hless. lia.
Qed.

(** When the search by username alone gives [max_results] users or more,
    [search_users] makes no other search: it returns the first
    [max_results] of them ([found[:max_results]]), and the only request
    after the access to the admin client is the one by username. *)
Theorem search_users_stops_when_full
  (w : World) (query : string) (max_results : Z) (s s1 : Self) (admin : KeycloakAdmin)
  (answer : pyval) (found : list pyval) :
  admin_adapter w s = (Returns admin, s1) ->
  admin_get_users w admin (users_query "username" query max_results) = Returns answer ->
  py_iter answer = Returns found ->
  max_results <= Z.of_nat (List.length found) ->
  fst (search_users w query max_results s) = Returns (py_slice_to found max_results)
  /\ admin_log (snd (search_users w query max_results s))
     = admin_log s1 ++ [GetUsers (users_query "username" query max_results)].
Proof.
  intros Hadmin Hanswer Hfound Hfull.
  unfold search_users, st_try_except, st_bind, call_get_users, st_lift.
  rewrite Hadmin, Hanswer, Hfound.
  rewrite !search_more_full by exact Hfull. split; reflexivity.
Qed.

Lemma user_ids_of_strings (users : list pyval) (ids : list string) :
  id_strings users = Some ids -> user_ids users = Returns (map PStr ids).
Proof.
  revert ids. induction users as [| user rest IH]; intros ids Hids.
  - injection Hids as <-. reflexivity.
  - cbn [id_strings] in Hids. destruct user as [| | | | | | items]; try discriminate.
    destruct (dict_lookup items "id") as [[| | | | id | |] |] eqn:Hid; try discriminate.
    destruct (id_strings rest) as [rest_ids |]; [| discriminate].
    injection Hids as <-. cbn [user_ids py_getitem]. rewrite Hid. cbn [obind py_hashable].
    rewrite (IH rest_ids eq_refl). reflexivity.
Qed.

Lemma existsb_key_eqb (json_float : Z -> Z -> float) (id : string) (ids : list string) :
  existsb (py_key_eqb json_float (PStr id)) (map PStr ids) = existsb (String.eqb id) ids.
Proof. induction ids as [| i rest IH]; [reflexivity |]. cbn. rewrite <- IH. reflexivity. Qed.

Lemma new_users_of_strings (json_float : Z -> Z -> float) (ids : list string)
  (found : list pyval) (found_ids : list string) :
  id_strings found = Some found_ids ->
  exists fresh,
    new_users json_float (map PStr ids) found = Returns fresh
    /\ id_strings fresh = Some (filter (unseen ids) found_ids).
Proof.
  revert found_ids. induction found as [| user rest IH]; intros found_ids Hids.
  - injection Hids as <-. exists []. split; reflexivity.
  - cbn [id_strings] in Hids. destruct user as [| | | | | | items]; try discriminate.
    destruct (dict_lookup items "id") as [[| | | | id | |] |] eqn:Hid; try discriminate.
    destruct (id_strings rest) as [rest_ids |]; [| discriminate].
    injection Hids as <-.
    destruct (IH rest_ids eq_refl) as (more & Hmore & Hmore_ids).
    cbn [new_users py_getitem]. rewrite Hid. cbn [obind py_hashable]. rewrite Hmore.
    cbn [obind]. rewrite existsb_key_eqb. cbn [filter].
    replace (unseen ids id) with (negb (existsb (String.eqb id) ids)) by reflexivity.
    destruct (existsb (String.eqb id) ids); cbn [negb].
    + exists more. split; [reflexivity | exact Hmore_ids].
    + exists (PDict items :: more). split; [reflexivity |].
      cbn [id_strings]. rewrite Hid, Hmore_ids. reflexivity.
Qed.

Lemma id_strings_app (a b : list pyval) (x y : list string) :
  id_strings a = Some x -> id_strings b = Some y -> id_strings (a ++ b) = Some (x ++ y).
Proof.
  revert x. induction a as [| user rest IH]; intros x Ha Hb.
  - injection Ha as <-. exact Hb.
  - cbn [id_strings app] in Ha |- *. destruct user as [| | | | | | items]; try discriminate.
    destruct (dict_lookup items "id") as [[| | | | id | |] |]; try discriminate.
    destruct (id_strings rest) as [rest_ids |]; [| discriminate].
    injection Ha as <-. rewrite (IH rest_ids eq_refl Hb). reflexivity.
Qed.

Lemma id_strings_firstn (k : nat) (l : list pyval) (ids : list string) :
  id_strings l = Some ids -> id_strings (firstn k l) = Some (firstn k ids).
Proof.
  revert l ids. induction k as [| k IH]; intros l ids Hids; [reflexivity |].
  destruct l as [| user rest].
  - injection Hids as <-. reflexivity.
  - cbn [id_strings firstn] in Hids |- *.
    destruct user as [| | | | | | items]; try discriminate.
    destruct (dict_lookup items "id") as [[| | | | id | |] |]; try discriminate.
    destruct (id_strings rest) as [rest_ids |] eqn:Hrest; [| discriminate].
    injection Hids as <-. rewrite (IH rest rest_ids Hrest). reflexivity.
Qed.

Lemma NoDup_firstn_ids (k : nat) (ids : list string) : NoDup ids -> NoDup (firstn k ids).
Proof.
  intros Hnodup. rewrite <- (firstn_skipn k ids) in Hnodup.
  apply NoDup_app_remove_r in Hnodup. exact Hnodup.
Qed.

Lemma NoDup_app_unseen (ids found_ids : list string) :
  NoDup ids -> NoDup found_ids -> NoDup (ids ++ filter (unseen ids) found_ids).
Proof.
  intros Hids Hfound. apply NoDup_app; [exact Hids | apply NoDup_filter; exact Hfound |].
  intros id Hin Hkept. apply filter_In in Hkept as [_ Hunseen].
  unfold unseen in Hunseen. apply negb_true_iff in Hunseen.
  assert (Hseen : existsb (String.eqb id) ids = true).
  { apply existsb_exists. exists id. split; [exact Hin | apply String.eqb_refl]. }
  congruence.
Qed.

(** Users with ids, no id twice. *)
Lemma search_more_distinct (w : World) (field query : string) (max_results : Z)
  (users users' : list pyval) (ids : list string) (s s' : Self) :
  (forall admin q answer, admin_get_users w admin q = Returns answer -> users_answer answer) ->
  id_strings users = Some ids ->
  NoDup ids ->
  search_more w field query max_results users s = (Returns users', s') ->
  exists ids', id_strings users' = Some ids' /\ NoDup ids'.
Proof.
  intros Hanswers Hids Hnodup. unfold search_more.
  destruct (Z.of_nat (List.length users) <? max_results).
  - intros Hrun.
    apply st_bind_returns in Hrun as (admin & s1 & _ & Hrun).
    apply st_bind_returns in Hrun as (answer & s2 & Hanswer & Hrun).
    unfold call_get_users in Hanswer. injection Hanswer as Hanswer _.
    destruct (Hanswers _ _ _ Hanswer) as (found & found_ids & -> & Hfound & Hfound_nodup).
    unfold st_lift in Hrun. injection Hrun as Hrun _.
    rewrite (user_ids_of_strings users ids Hids) in Hrun. cbn [obind py_iter] in Hrun.
    destruct (new_users_of_strings (json_float w) ids found found_ids Hfound)
      as (fresh & Hfresh & Hfresh_ids).
    rewrite Hfresh in Hrun. cbn [obind] in Hrun. injection Hrun as <-.
    exists (ids ++ filter (unseen ids) found_ids). split.
    + apply id_strings_app; assumption.
    + apply NoDup_app_unseen; assumption.
  - intros [= <- _]. exists ids. split; assumption.
Qed.

(** No user twice.  When every answer of [get_users] is a list of users
    with [str] ids, none twice in one answer, the users [search_users]
    returns have pairwise different ids: a user found by username is not
    added again when the search by e-mail, first name or last name finds
    them too. *)
Theorem search_users_distinct_ids (w : World) (query : string) (max_results : Z)
  (s s' : Self) (users : list pyval) :
  (forall admin q answer, admin_get_users w admin q = Returns answer -> users_answer answer) ->
  search_users w query max_results s = (Returns users, s') ->
  exists ids, id_strings users = Some ids /\ NoDup ids.
Proof.
  intros Hanswers Hrun.
  apply search_users_returns in Hrun
    as (admin & s1 & answer & found & s2 & by_email & s3 & by_first & s4 & by_last
        & _ & Hanswer & Hfound & Hemail & Hfirst & Hlast & ->).
  destruct (Hanswers _ _ _ Hanswer) as (found' & ids0 & -> & Hids0 & Hnodup0).
  injection Hfound as <-.
  destruct (search_more_distinct _ _ _ _ _ _ _ _ _ Hanswers Hids0 Hnodup0 Hemail)
    as (ids1 & Hids1 & Hnodup1).
  destruct (search_more_distinct _ _ _ _ _ _ _ _ _ Hanswers Hids1 Hnodup1 Hfirst)
    as (ids2 & Hids2 & Hnodup2).
  destruct (search_more_distinct _ _ _ _ _ _ _ _ _ Hanswers Hids2 Hnodup2 Hlast)
    as (ids3 & Hids3 & Hnodup3).
  destruct (py_slice_to_firstn by_last max_results) as (k & -> & _).
  exists (firstn k ids3). split.
  - apply id_strings_firstn. exact Hids3.
  - apply NoDup_firstn_ids. exact Hnodup3.
Qed.

(** *** The requests a search makes *)

Section Requests.

Variable P : AdminCall -> Prop.






Hypothesis token_ok : P TokenRequest.



End Requests.







(* ================================================================= *)
(** ** The order of the users found *)

Lemma search_more_extends (w : World) (field query : string) (max_results : Z)
  (users users' : list pyval) (s s' : Self) :
  search_more w field query max_results users s = (Returns users', s') ->
  exists fresh, users' = users ++ fresh.
Proof.
  unfold search_more. destruct (Z.of_nat (List.length users) <? max_results).
  - intros Hrun.
    apply st_bind_returns in Hrun as (admin & s1 & _ & Hrun).
    apply st_bind_returns in Hrun as (answer & s2 & _ & Hrun).
    unfold st_lift in Hrun. injection Hrun as Hrun _.
    destruct (user_ids users) as [ids | e]; cbn [obind] in Hrun; [| discriminate].
    destruct (py_iter answer) as [found | e]; cbn [obind] in Hrun; [| discriminate].
    destruct (new_users _ ids found) as [fresh | e]; cbn [obind] in Hrun; [| discriminate].
    injection Hrun as <-. exists fresh. reflexivity.
  - intros [= <- _]. exists []. symmetry. apply app_nil_r.
Qed.

(** Matches by username come first.  The users [search_users] returns are
    the users of the search by username, in the order of the answer,
    followed by users of the later searches, cut to [max_results]. *)
Theorem search_users_username_first
  (w : World) (query : string) (max_results : Z) (s s' : Self) (users : list pyval) :
  search_users w query max_results s = (Returns users, s') ->
  exists admin answer found later,
    admin_get_users w admin (users_query "username" query max_results) = Returns answer
    /\ py_iter answer = Returns found
    /\ users = py_slice_to (found ++ later) max_results.
Proof.
  intros Hrun.
  apply search_users_returns in Hrun
    as (admin & s1 & answer & found & s2 & by_email & s3 & by_first & s4 & by_last
        & _ & Hanswer & Hfound & Hemail & Hfirst & Hlast & ->).
  apply search_more_extends in Hemail as (fresh1 & ->).
  apply search_more_extends in Hfirst as (fresh2 & ->).
  apply search_more_extends in Hlast as (fresh3 & ->).
  exists admin, answer, found, (fresh1 ++ fresh2 ++ fresh3).
  rewrite <- !app_assoc. repeat split; assumption.
Qed.


(* ================================================================= *)
(** ** Instances in the realm *)

(** On a new adapter with the wrong secret a refresh is due and the realm
    refuses the token request. *)
Lemma admin_adapter_refused_wrong_secret :
  (refresh_due refusing_realm blank_self = true
   /\ openid_token refusing_realm (token_requests blank_self)
      = Raises (PyExc KeycloakError "401: Unauthorized")
   /\ isinstance_KeycloakError (PyExc KeycloakError "401: Unauthorized") = true)
  /\ fst (admin_adapter refusing_realm blank_self)
     = Raises (PyExc ValueError "Failed to initialize admin client")
  /\ _admin_adapter (snd (admin_adapter refusing_realm blank_self)) = None
  /\ _admin_token_expiry (snd (admin_adapter refusing_realm blank_self)) = 0%float
  /\ admin_log (snd (admin_adapter refusing_realm blank_self))
     = admin_log blank_self ++ [TokenRequest]
  /\ refresh_due refusing_realm (snd (admin_adapter refusing_realm blank_self)) = true.
Proof.
  split; [repeat split |].
  apply (admin_adapter_refused refusing_realm blank_self
           (PyExc KeycloakError "401: Unauthorized"));
    reflexivity.
Defined.

(** A stale client is replaced: the realm's token lives 300 seconds from the
    reading taken at the refresh, 1001. *)
Lemma admin_adapter_new_client_stale :
  (refresh_due admin_realm stale_self = true
   /\ openid_token admin_realm (token_requests stale_self) = Returns service_token
   /\ py_get service_token "expires_in" (PInt 60) = Returns (PInt 300)
   /\ py_to_float (json_float admin_realm) (PInt 300) = Returns 300%float
   /\ new_KeycloakAdmin admin_realm service_token = Returns (AdminWith service_token))
  /\ fst (admin_adapter admin_realm stale_self) = Returns (AdminWith service_token)
  /\ _admin_adapter (snd (admin_adapter admin_realm stale_self))
     = Some (AdminWith service_token)
  /\ _admin_token_expiry (snd (admin_adapter admin_realm stale_self))
     = (time_time admin_realm (pred (clock_reads (snd (admin_adapter admin_realm stale_self))))
        + 300 - 30)%float
  /\ admin_log (snd (admin_adapter admin_realm stale_self))
     = admin_log stale_self ++ [TokenRequest].
Proof.
  split; [repeat split |].
  apply (admin_adapter_new_client admin_realm stale_self service_token (PInt 300)
           300%float (AdminWith service_token));
    reflexivity.
Defined.

(** The 30 seconds taken off a token's lifetime do not keep every token
    that lives 30 seconds or less from being used again.  At the reading
    2^31 - 2^-22 the binary64 sum with 30 is rounded up to 2^31 + 30, so a
    token that lives 30 seconds gets the expiry 2^31, later than the
    reading; on a clock that stands still the next access finds no refresh
    due and requests no token. *)
Theorem short_lived_token_held :
  refresh_due still_realm blank_self = true
  /\ fst (admin_adapter still_realm blank_self)
     = Returns (AdminWith (PDict [("access_token", PStr "svc.jwt"); ("expires_in", PInt 30)]))
  /\ (forall n, time_time still_realm n = 0x1.fffffffffffffp+30%float)
  /\ _admin_token_expiry (snd (admin_adapter still_realm blank_self)) = 2147483648%float
  /\ refresh_due still_realm (snd (admin_adapter still_realm blank_self)) = false
  /\ token_requests
       (snd (admin_adapter still_realm (snd (admin_adapter still_realm blank_self))))
     = 1%nat.
Proof. repeat split. Qed.

(** An [int] beyond the range of binary64 has no sum with the clock: the
    refresh raises [OverflowError], which is no [KeycloakError]. *)
Example overflow_scenario :
  py_float_add decimal_float 1000%float (PInt (10 ^ 400))
  = Raises (PyExc (LibraryError "OverflowError") "int too large to convert to float").
Proof. reflexivity. Qed.

(** Ids that are numbers are compared by value: 1, 1.0 and [True] are one
    id, and 2^53 + 1 is not the binary64 its literal is read as. *)
Example number_ids_scenario :
  py_key_eqb decimal_float (PInt 1) (PFloat 1 0) = true
  /\ py_key_eqb decimal_float (PBool true) (PInt 1) = true
  /\ py_key_eqb decimal_float (PInt (2 ^ 53 + 1)) (PFloat (2 ^ 53 + 1) 0) = false.
Proof. repeat split. Qed.

(** Out of reach, the connection error comes through and the stale client
    stays. *)
Lemma admin_adapter_other_error_offline :
  (refresh_due offline_realm stale_self = true
   /\ openid_token offline_realm (token_requests stale_self)
      = Raises (PyExc (LibraryError "ConnectionError") "Connection refused")
   /\ isinstance_KeycloakError (PyExc (LibraryError "ConnectionError") "Connection refused")
      = false)
  /\ fst (admin_adapter offline_realm stale_self)
     = Raises (PyExc (LibraryError "ConnectionError") "Connection refused")
  /\ _admin_adapter (snd (admin_adapter offline_realm stale_self)) = _admin_adapter stale_self
  /\ _admin_token_expiry (snd (admin_adapter offline_realm stale_self))
     = _admin_token_expiry stale_self.
Proof.
  split; [repeat split |].
  apply (admin_adapter_other_error offline_realm stale_self
           (PyExc (LibraryError "ConnectionError") "Connection refused"));
    reflexivity.
Defined.

(** A search for two users returns two of the three the realm knows. *)
Lemma search_users_at_most_max_two :
  (search_users admin_realm "al" 2 blank_self
   = (Returns [user_named "u1" "alice"; user_named "u2" "alan"],
      snd (search_users admin_realm "al" 2 blank_self))
   /\ 0 <= 2)
  /\ Z.of_nat (List.length [user_named "u1" "alice"; user_named "u2" "alan"]) <= 2.
Proof.
  assert (Hrun : search_users admin_realm "al" 2 blank_self
                 = (Returns [user_named "u1" "alice"; user_named "u2" "alan"],
                    snd (search_users admin_realm "al" 2 blank_self))) by reflexivity.
  assert (Hmax : 0 <= 2) by lia.
  split; [split; assumption |].
  exact (search_users_at_most_max admin_realm "al" 2 blank_self _ _ Hrun Hmax).
Defined.

(** A search for one user stops after the search by username. *)
Lemma search_users_stops_when_full_one :
  (admin_adapter admin_realm blank_self
   = (Returns (AdminWith service_token), snd (admin_adapter admin_realm blank_self))
   /\ admin_get_users admin_realm (AdminWith service_token) (users_query "username" "al" 1)
      = Returns (PList [user_named "u1" "alice"])
   /\ py_iter (PList [user_named "u1" "alice"]) = Returns [user_named "u1" "alice"]
   /\ 1 <= Z.of_nat (List.length [user_named "u1" "alice"]))
  /\ fst (search_users admin_realm "al" 1 blank_self)
     = Returns (py_slice_to [user_named "u1" "alice"] 1)
  /\ admin_log (snd (search_users admin_realm "al" 1 blank_self))
     = admin_log (snd (admin_adapter admin_realm blank_self))
       ++ [GetUsers (users_query "username" "al" 1)].
Proof.
  assert (Hfull : 1 <= Z.of_nat (List.length [user_named "u1" "alice"])) by (cbn; lia).
  split; [repeat split; exact Hfull |].
  apply (search_users_stops_when_full admin_realm "al" 1 blank_self
           (snd (admin_adapter admin_realm blank_self)) (AdminWith service_token)
           (PList [user_named "u1" "alice"]) [user_named "u1" "alice"]);
    first [exact Hfull | reflexivity].
Defined.

(** The realm's answers are lists of users with ids, none twice. *)
Lemma realm_get_users_answers (admin : KeycloakAdmin) (query answer : pyval) :
  realm_get_users admin query = Returns answer -> users_answer answer.
Proof.
  unfold realm_get_users, users_answer.
  destruct query as [| | | | | | [| [field value] items]]; try discriminate.
  destruct value; try discriminate.
  destruct (String.eqb field "username");
    [| destruct (String.eqb field "email"); [| destruct (String.eqb field "lastName")]];
    intros [= <-]; eexists; eexists;
    (split; [reflexivity | split; [reflexivity |]]);
    repeat constructor; cbn; intuition discriminate.
Qed.

(** The user found both by username and by e-mail is returned once. *)
Lemma search_users_distinct_ids_al :
  ((forall admin q answer,
      admin_get_users admin_realm admin q = Returns answer -> users_answer answer)
   /\ search_users admin_realm "al" 10 blank_self
      = (Returns [user_named "u1" "alice"; user_named "u2" "alan"; user_named "u3" "sal"],
         snd (search_users admin_realm "al" 10 blank_self)))
  /\ exists ids,
      id_strings [user_named "u1" "alice"; user_named "u2" "alan"; user_named "u3" "sal"]
      = Some ids
      /\ NoDup ids.
Proof.
  assert (Hrun : search_users admin_realm "al" 10 blank_self
                 = (Returns [user_named "u1" "alice"; user_named "u2" "alan";
                             user_named "u3" "sal"],
                    snd (search_users admin_realm "al" 10 blank_self))) by reflexivity.
  split; [split; [exact realm_get_users_answers | exact Hrun] |].
  exact (search_users_distinct_ids admin_realm "al" 10 blank_self _ _
           realm_get_users_answers Hrun).
Defined.


(** The requests of that search, as the log has them. *)
Example follow_ups_scenario :
  admin_log (snd (search_users admin_realm "al" 10 blank_self))
  = [TokenRequest;
     GetUsers (users_query "username" "al" 10);
     GetUsers (users_query "email" "al" 9);
     GetUsers (users_query "firstName" "al" 8);
     GetUsers (users_query "lastName" "al" 8)].
Proof. reflexivity. Qed.

(** The user found by username leads the result. *)
Lemma search_users_username_first_al :
  search_users admin_realm "al" 10 blank_self
  = (Returns [user_named "u1" "alice"; user_named "u2" "alan"; user_named "u3" "sal"],
     snd (search_users admin_realm "al" 10 blank_self))
  /\ exists admin answer found later,
      admin_get_users admin_realm admin (users_query "username" "al" 10) = Returns answer
      /\ py_iter answer = Returns found
      /\ [user_named "u1" "alice"; user_named "u2" "alan"; user_named "u3" "sal"]
         = py_slice_to (found ++ later) 10.
Proof.
  assert (Hrun : search_users admin_realm "al" 10 blank_self
                 = (Returns [user_named "u1" "alice"; user_named "u2" "alan";
                             user_named "u3" "sal"],
                    snd (search_users admin_realm "al" 10 blank_self))) by reflexivity.
  split; [exact Hrun |].
  exact (search_users_username_first admin_realm "al" 10 blank_self _ _ Hrun).
Defined.

(** The permission granted to alice rests on the entry for invoices. *)
Lemma check_permissions_grant_names_resource_invoices :
  fst (check_permissions realm "alice.jwt" "invoices" "read" new_adapter) = Returns true
  /\ exists perms items scopes,
      openid_uma_permissions realm "alice.jwt" ["invoices#read"] = Returns (PList perms)
      /\ In (PDict items) perms
      /\ dict_lookup items "rsname" = Some (PStr "invoices")
      /\ py_get (PDict items) "scopes" (PList []) = Returns scopes
      /\ py_in "read" scopes = Returns true.
Proof.
  split; [reflexivity |].
  apply (check_permissions_grant_names_resource realm new_adapter "alice.jwt" "invoices"
           "read").
  reflexivity.
Defined.
